(** * RouterInitializer: the bootstrap / initial-navigation protocol

    A shallow embedding of the [RouterInitializer] class of
    [packages/router/src/router_module.ts] and of the way the host and the
    router drive it.

    - The class keeps three fields ([initNavigation], [destroyed],
      [resultOfPreactivationDone]); they are the record [RouterInitializer].
    - Every method is written in a small state-and-trace monad [M]: the state
      is the [World] (the instance, the router's [afterPreactivation] hook
      slot, one entry per promise returned by [appInitializer] and what the
      subject has told its observers), the trace lists, in program order,
      every outbound call the method makes ([injector.get], the router, the
      preloader, the scroller, the subject, the promise's [resolve]).
    - [Promise.then] is asynchronous: [appInitializer] only registers its
      callback; the callback runs as a separate step when the
      [LOCATION_INITIALIZED] promise is fulfilled, and is skipped when that
      promise is rejected.
    - Collaborators are taken not to throw: a lookup or a router call returns
      normally. *)

From stdpp Require Import base list strings.

(** ** Values of the configuration *)

(** A JavaScript value as far as [===] against a string literal or
    [undefined] can tell values apart. *)
Inductive JsValue :=
| JsUndefined
| JsNull
| JsBoolean (b : bool)
| JsString (s : string).

(** [v === 'lit'] *)
Definition strict_eq_string (v : JsValue) (lit : string) : bool :=
  match v with
  | JsString s => bool_decide (s = lit)
  | _ => false
  end.

(** [v === undefined] *)
Definition strict_eq_undefined (v : JsValue) : bool :=
  match v with
  | JsUndefined => true
  | _ => false
  end.

(** [ExtraOptions], restricted to the one field [RouterInitializer] reads. *)
Record ExtraOptions := { initialNavigation : JsValue }.

(** [type InitialNavigation = 'disabled'|'enabledBlocking'|'enabledNonBlocking'] *)
Definition InitialNavigation (v : JsValue) : Prop :=
  v = JsString "disabled" \/ v = JsString "enabledBlocking"
  \/ v = JsString "enabledNonBlocking".

(** ** Objects the methods talk to *)

Module Token.
Inductive t :=
| LOCATION_INITIALIZED
| Router
| ROUTER_CONFIGURATION
| RouterPreloader
| RouterScroller
| ApplicationRef.
End Token.

(** Object identities: a [ComponentRef], a component type, a navigation of the
    router, a promise returned by [appInitializer]. *)
Definition ComponentRef := nat.
Definition ComponentType := nat.
Definition NavigationId := nat.
Definition PhaseId := nat.

(** What [injector.get(ApplicationRef)] hands to [bootstrapListener]. *)
Record ApplicationRef := {
  components : list ComponentRef;
  componentTypes : list ComponentType
}.

(** What an observer of an observable can be told. *)
Inductive Notification := Next | Complete.

(** What the [afterPreactivation] handler returns: the instance's subject
    ([this.resultOfPreactivationDone]) or the cold [of(null)]. *)
Inductive HookResult := ReturnsSubject | ReturnsOfNull.

(** One entry of the trace. *)
Inductive Event :=
| InjectorGet (t : Token.t)
| SetUpLocationChangeListener
| AssignAfterPreactivation (k : PhaseId)
| RouterInitialNavigation
| SetUpPreloading
| ScrollerInit
| ResetRootComponentType (ty : option ComponentType)
| SubjectNext
| SubjectComplete
| Resolve (k : PhaseId)
| HookReturned (n : NavigationId) (r : HookResult).

Global Instance Token_eq_dec : EqDecision Token.t.
Proof. solve_decision. Defined.
Global Instance Notification_eq_dec : EqDecision Notification.
Proof. solve_decision. Defined.
Global Instance HookResult_eq_dec : EqDecision HookResult.
Proof. solve_decision. Defined.
Global Instance Event_eq_dec : EqDecision Event.
Proof. solve_decision. Defined.

(** ** rxjs [Subject<void>]

    The subject of rxjs as [RouterInitializer] uses it: no error is ever sent,
    so a subject is open (with its current observers) or stopped. *)
Record Subject := {
  isStopped : bool;
  observers : list NavigationId
}.

(** [new Subject<void>()] *)
Definition Subject_new : Subject := {| isStopped := false; observers := [] |}.

(** [subject.next(v)]: every current observer is told, unless stopped. The
    second component lists who is told what. *)
Definition Subject_next (s : Subject)
  : Subject * list (NavigationId * Notification) :=
  if isStopped s then (s, [])
  else (s, map (fun n => (n, Next)) (observers s)).

(** [subject.complete()]: stops the subject, tells and drops the observers;
    nothing happens on a stopped subject. *)
Definition Subject_complete (s : Subject)
  : Subject * list (NavigationId * Notification) :=
  if isStopped s then (s, [])
  else ({| isStopped := true; observers := [] |},
        map (fun n => (n, Complete)) (observers s)).

(** [subject.subscribe(observer)]: a stopped subject completes the newcomer
    at once, an open one records it. *)
Definition Subject_subscribe (n : NavigationId) (s : Subject)
  : Subject * list (NavigationId * Notification) :=
  if isStopped s then (s, [(n, Complete)])
  else ({| isStopped := false; observers := observers s ++ [n] |}, []).

(** ** The instance, the promises and the world *)

Record RouterInitializer := {
  initNavigation : bool;
  destroyed : bool;
  resultOfPreactivationDone : Subject
}.

(** [new RouterInitializer(injector)] *)
Definition RouterInitializer_new : RouterInitializer :=
  {| initNavigation := false;
     destroyed := false;
     resultOfPreactivationDone := Subject_new |}.

Inductive PromiseState := Pending | Fulfilled | Rejected.

Global Instance PromiseState_eq_dec : EqDecision PromiseState.
Proof. solve_decision. Defined.

(** The promise [p.then(callback)] that one call of [appInitializer] returned:
    - [Waiting]: [p] has not settled, the callback has not run;
    - [Ran st]: the callback ran and returned a promise in state [st], which
      the returned promise follows;
    - [Skipped]: [p] was rejected, the callback never runs. *)
Inductive Phase :=
| Waiting
| Ran (st : PromiseState)
| Skipped.

Definition phase_promise (ph : Phase) : PromiseState :=
  match ph with
  | Waiting => Pending
  | Ran st => st
  | Skipped => Rejected
  end.

(** [router.hooks.afterPreactivation]: the router's own hook, or the closure
    [appInitializer] assigns, which captures the [resolve] of its promise. *)
Inductive Hook :=
| DefaultHook
| InitializerHook (k : PhaseId).

(** [notified] is what the subject has told its observers so far, oldest
    first. *)
Record World := {
  self : RouterInitializer;
  hook : Hook;
  phases : list Phase;
  notified : list (NavigationId * Notification)
}.

Definition World_new : World :=
  {| self := RouterInitializer_new; hook := DefaultHook; phases := [];
     notified := [] |}.

(** The state of the promise returned by the [k]-th call of
    [appInitializer]. *)
Definition promise_of (w : World) (k : PhaseId) : option PromiseState :=
  phase_promise <$> phases w !! k.

(** ** The monad of the methods *)

Definition M (A : Type) : Type := World -> A * World * list Event.

Definition ret {A} (a : A) : M A := fun w => (a, w, []).

Definition bind {A B} (m : M A) (f : A -> M B) : M B :=
  fun w =>
    let '(a, w1, e1) := m w in
    let '(b, w2, e2) := f a w1 in
    (b, w2, e1 ++ e2).

Declare Scope m_scope.
Delimit Scope m_scope with M.
Notation "x <- m ;; k" := (bind m (fun x => k))
  (at level 100, m at next level, right associativity) : m_scope.
Notation "m ;; k" := (bind m (fun _ => k))
  (at level 100, right associativity) : m_scope.
Open Scope m_scope.

Definition emit (e : Event) : M unit := fun w => (tt, w, [e]).

Definition this : M RouterInitializer := fun w => (self w, w, []).

Definition set_this (r : RouterInitializer) : M unit :=
  fun w => (tt, {| self := r; hook := hook w; phases := phases w;
                   notified := notified w |}, []).

Definition get_hook : M Hook := fun w => (hook w, w, []).

Definition set_hook (h : Hook) : M unit :=
  fun w => (tt, {| self := self w; hook := h; phases := phases w;
                   notified := notified w |}, []).

Definition get_phase (k : PhaseId) : M (option Phase) :=
  fun w => (phases w !! k, w, []).

Definition set_phase (k : PhaseId) (ph : Phase) : M unit :=
  fun w => (tt, {| self := self w; hook := hook w;
                   phases := <[k := ph]> (phases w);
                   notified := notified w |}, []).

(** [p.then(callback)]: a fresh promise, waiting for [p]. *)
Definition then_ : M PhaseId :=
  fun w => (length (phases w),
            {| self := self w; hook := hook w;
               phases := phases w ++ [Waiting];
               notified := notified w |}, []).

(** Lifts an operation of the subject to [this.resultOfPreactivationDone]. *)
Definition on_subject
    (f : Subject -> Subject * list (NavigationId * Notification)) : M unit :=
  fun w =>
    let r := self w in
    let '(s, ns) := f (resultOfPreactivationDone r) in
    (tt, {| self := {| initNavigation := initNavigation r;
                       destroyed := destroyed r;
                       resultOfPreactivationDone := s |};
            hook := hook w; phases := phases w;
            notified := notified w ++ ns |}, []).

(** [resolve(true)] for the promise [res] of call [k]: settles it if it is
    still pending. *)
Definition resolve (k : PhaseId) : M unit :=
  emit (Resolve k);;
  ph <- get_phase k;;
  match ph with
  | Some (Ran Pending) => set_phase k (Ran Fulfilled)
  | _ => ret tt
  end.

(** ** The methods of [RouterInitializer] *)

Section Methods.

Variable opts : ExtraOptions.

(** [appInitializer()]: looks the [LOCATION_INITIALIZED] promise [p] up and
    returns [p.then(callback)]; the callback is [appInitializer_callback]. *)
Definition appInitializer : M PhaseId :=
  emit (InjectorGet Token.LOCATION_INITIALIZED);;
  then_.

(** The closure assigned to [router.hooks.afterPreactivation] by the call
    whose promise is [k]. *)
Definition afterPreactivation (k : PhaseId) : M HookResult :=
  r <- this;;
  if negb (initNavigation r) then
    set_this {| initNavigation := true;
                destroyed := destroyed r;
                resultOfPreactivationDone := resultOfPreactivationDone r |};;
    resolve k;;
    ret ReturnsSubject
  else
    ret ReturnsOfNull.

(** The callback given to [p.then] by the call whose promise is [k]. When the
    instance is destroyed it returns [Promise.resolve(true)]; otherwise it
    creates [res], does its two lookups, branches on
    [opts.initialNavigation] and returns [res]. *)
Definition appInitializer_callback (k : PhaseId) : M unit :=
  r <- this;;
  if destroyed r then
    set_phase k (Ran Fulfilled)
  else
    set_phase k (Ran Pending);;
    emit (InjectorGet Token.Router);;
    emit (InjectorGet Token.ROUTER_CONFIGURATION);;
    if strict_eq_string (initialNavigation opts) "disabled" then
      emit SetUpLocationChangeListener;;
      resolve k
    else if strict_eq_string (initialNavigation opts) "enabledBlocking" then
      emit (AssignAfterPreactivation k);;
      set_hook (InitializerHook k);;
      emit RouterInitialNavigation
    else
      resolve k.

(** [bootstrappedComponentRef !== ref.components[0]]: the argument is an
    object, [components[0]] is [undefined] on an empty array. *)
Definition is_first_root (app : ApplicationRef) (ref : ComponentRef) : bool :=
  bool_decide (components app !! 0 = Some ref).

(** [bootstrapListener(bootstrappedComponentRef)]; [app] is what the lookup
    of [ApplicationRef] returns at the time of the call. *)
Definition bootstrapListener (app : ApplicationRef)
    (bootstrappedComponentRef : ComponentRef) : M unit :=
  emit (InjectorGet Token.ROUTER_CONFIGURATION);;
  emit (InjectorGet Token.RouterPreloader);;
  emit (InjectorGet Token.RouterScroller);;
  emit (InjectorGet Token.Router);;
  emit (InjectorGet Token.ApplicationRef);;
  if negb (is_first_root app bootstrappedComponentRef) then
    ret tt
  else
    (if strict_eq_string (initialNavigation opts) "enabledNonBlocking"
        || strict_eq_undefined (initialNavigation opts)
     then emit RouterInitialNavigation
     else ret tt);;
    emit SetUpPreloading;;
    emit ScrollerInit;;
    emit (ResetRootComponentType (componentTypes app !! 0));;
    emit SubjectNext;;
    on_subject Subject_next;;
    emit SubjectComplete;;
    on_subject Subject_complete.

(** [ngOnDestroy()] *)
Definition ngOnDestroy : M unit :=
  r <- this;;
  set_this {| initNavigation := initNavigation r;
              destroyed := true;
              resultOfPreactivationDone := resultOfPreactivationDone r |}.

(** ** The environment of the instance *)

(** The [LOCATION_INITIALIZED] promise is fulfilled: the callback of call [k]
    runs, once. *)
Definition gate_fulfilled (k : PhaseId) : M unit :=
  ph <- get_phase k;;
  match ph with
  | Some Waiting => appInitializer_callback k
  | _ => ret tt
  end.

(** The [LOCATION_INITIALIZED] promise is rejected: [then] skips the callback
    and the returned promise is rejected. *)
Definition gate_rejected (k : PhaseId) : M unit :=
  ph <- get_phase k;;
  match ph with
  | Some Waiting => set_phase k Skipped
  | _ => ret tt
  end.

(** Modelled from the spec: the Navigation Engine's pre-activation extension
    point ([router.ts], which calls the hook, is not among the sources).
    Navigation [n] reaches pre-activation, calls the hook in the slot and
    awaits what it returns before going on: it subscribes to the subject when
    the handler returns it, and goes on at once on the already-resolved
    [of(null)]. The router's own hook pauses nothing. *)
Definition preactivation (n : NavigationId) : M unit :=
  h <- get_hook;;
  r <- match h with
       | DefaultHook => ret ReturnsOfNull
       | InitializerHook k => afterPreactivation k
       end;;
  emit (HookReturned n r);;
  match r with
  | ReturnsSubject => on_subject (Subject_subscribe n)
  | ReturnsOfNull => ret tt
  end.

(** What can happen to the instance, one step at a time. *)
Inductive Op :=
| CallAppInitializer
| GateFulfilled (k : PhaseId)
| GateRejected (k : PhaseId)
| CallBootstrapListener (app : ApplicationRef) (ref : ComponentRef)
| CallNgOnDestroy
| PreActivation (n : NavigationId).

Definition perform (op : Op) : M unit :=
  match op with
  | CallAppInitializer => _ <- appInitializer;; ret tt
  | GateFulfilled k => gate_fulfilled k
  | GateRejected k => gate_rejected k
  | CallBootstrapListener app ref => bootstrapListener app ref
  | CallNgOnDestroy => ngOnDestroy
  | PreActivation n => preactivation n
  end.

Fixpoint perform_all (ops : list Op) : M unit :=
  match ops with
  | [] => ret tt
  | op :: ops' => perform op;; perform_all ops'
  end.

(** The world after, and the trace of, a computation. *)
Definition world_after {A} (m : M A) (w : World) : World := (m w).1.2.
Definition trace_of {A} (m : M A) (w : World) : list Event := (m w).2.

Definition step (w : World) (op : Op) : World := world_after (perform op) w.
Definition step_trace (w : World) (op : Op) : list Event :=
  trace_of (perform op) w.

Definition run (w : World) (ops : list Op) : World :=
  world_after (perform_all ops) w.
Definition run_trace (w : World) (ops : list Op) : list Event :=
  trace_of (perform_all ops) w.

(** Classifying steps. *)
Definition is_first_root_bootstrap (op : Op) : bool :=
  match op with
  | CallBootstrapListener app ref => is_first_root app ref
  | _ => false
  end.

Definition is_preactivation (op : Op) : bool :=
  match op with
  | PreActivation _ => true
  | _ => false
  end.

Definition settles_gate (k : PhaseId) (op : Op) : bool :=
  match op with
  | GateFulfilled j | GateRejected j => bool_decide (j = k)
  | _ => false
  end.

End Methods.

(** Classifying events. *)
Definition is_lookup (e : Event) : bool :=
  match e with
  | InjectorGet _ => true
  | _ => false
  end.

Definition is_initialNavigation (e : Event) : bool :=
  match e with
  | RouterInitialNavigation => true
  | _ => false
  end.

Definition is_setUpLocationChangeListener (e : Event) : bool :=
  match e with
  | SetUpLocationChangeListener => true
  | _ => false
  end.

(** How many events of a trace satisfy [p]. *)
Definition count (p : Event -> bool) (es : list Event) : nat :=
  length (List.filter p es).

(** The results the handler returned, in order. *)
Fixpoint hook_results (es : list Event) : list HookResult :=
  match es with
  | [] => []
  | HookReturned _ r :: es' => r :: hook_results es'
  | _ :: es' => hook_results es'
  end.

(** Navigation [n] is paused: it waits on the subject. *)
Definition paused (w : World) (n : NavigationId) : Prop :=
  n ∈ observers (resultOfPreactivationDone (self w)).

(** The completion signal has fired. *)
Definition fired (w : World) : bool :=
  isStopped (resultOfPreactivationDone (self w)).

(** How many steps of a run take the signal from pending to fired. *)
Fixpoint fire_count (opts : ExtraOptions) (w : World) (ops : list Op) : nat :=
  match ops with
  | [] => 0
  | op :: ops' =>
      (if negb (fired w) && fired (step opts w op) then 1 else 0)
      + fire_count opts (step opts w op) ops'
  end.

(** ** The rest of the module: options, router set-up, providers *)

(** A value held by an option or a router field: a primitive, or an object
    (a function, a class, an array), known by its identity. Numbers do not
    occur among the options read here. *)
Inductive Value :=
| Prim (v : JsValue)
| Obj (id : nat).

Global Instance JsValue_eq_dec : EqDecision JsValue.
Proof. solve_decision. Defined.
Global Instance Value_eq_dec : EqDecision Value.
Proof. solve_decision. Defined.

(** [if (v)]: [undefined], [null], [false] and the empty string are falsy. *)
Definition truthy (v : Value) : bool :=
  match v with
  | Prim JsUndefined | Prim JsNull => false
  | Prim (JsBoolean b) => b
  | Prim (JsString s) => negb (bool_decide (s = ""))
  | Obj _ => true
  end.

(** [a ?? b] *)
Definition nullish_coalesce (a b : Value) : Value :=
  match a with
  | Prim JsUndefined | Prim JsNull => b
  | _ => a
  end.

Module Config.

(** [interface ExtraOptions] in full; an absent property reads as
    [undefined]. [initialNavigation] is kept as in the record of the
    initializer. *)
Record ExtraOptions := {
  enableTracing : Value;
  useHash : Value;
  initialNavigation : JsValue;
  errorHandler : Value;
  preloadingStrategy : Value;
  onSameUrlNavigation : Value;
  scrollPositionRestoration : Value;
  anchorScrolling : Value;
  scrollOffset : Value;
  paramsInheritanceStrategy : Value;
  malformedUriErrorHandler : Value;
  urlUpdateStrategy : Value;
  relativeLinkResolution : Value;
  canceledNavigationResolution : Value
}.

(** [{}] *)
Definition empty : ExtraOptions :=
  {| enableTracing := Prim JsUndefined;
     useHash := Prim JsUndefined;
     initialNavigation := JsUndefined;
     errorHandler := Prim JsUndefined;
     preloadingStrategy := Prim JsUndefined;
     onSameUrlNavigation := Prim JsUndefined;
     scrollPositionRestoration := Prim JsUndefined;
     anchorScrolling := Prim JsUndefined;
     scrollOffset := Prim JsUndefined;
     paramsInheritanceStrategy := Prim JsUndefined;
     malformedUriErrorHandler := Prim JsUndefined;
     urlUpdateStrategy := Prim JsUndefined;
     relativeLinkResolution := Prim JsUndefined;
     canceledNavigationResolution := Prim JsUndefined |}.

(** [{enableTracing: false}], the value [ROUTER_PROVIDERS] gives to
    [ROUTER_CONFIGURATION]. *)
Definition tracing_off : ExtraOptions :=
  {| enableTracing := Prim (JsBoolean false);
     useHash := Prim JsUndefined;
     initialNavigation := JsUndefined;
     errorHandler := Prim JsUndefined;
     preloadingStrategy := Prim JsUndefined;
     onSameUrlNavigation := Prim JsUndefined;
     scrollPositionRestoration := Prim JsUndefined;
     anchorScrolling := Prim JsUndefined;
     scrollOffset := Prim JsUndefined;
     paramsInheritanceStrategy := Prim JsUndefined;
     malformedUriErrorHandler := Prim JsUndefined;
     urlUpdateStrategy := Prim JsUndefined;
     relativeLinkResolution := Prim JsUndefined;
     canceledNavigationResolution := Prim JsUndefined |}.

End Config.

(** What [injector.get(ROUTER_CONFIGURATION)] gives [RouterInitializer]: the
    same object, of which it reads [initialNavigation]. *)
Definition initializer_options (o : Config.ExtraOptions) : ExtraOptions :=
  {| initialNavigation := Config.initialNavigation o |}.

(** An argument of type [ExtraOptions] as JavaScript may pass it. *)
Inductive OptionsArg :=
| ArgUndefined
| ArgNull
| ArgObject (o : Config.ExtraOptions).

Module Engine.

(** The fields of [Router] this file assigns. *)
Record Router := {
  urlHandlingStrategy : Value;
  routeReuseStrategy : Value;
  titleStrategy : Value;
  errorHandler : Value;
  malformedUriErrorHandler : Value;
  onSameUrlNavigation : Value;
  paramsInheritanceStrategy : Value;
  relativeLinkResolution : Value;
  urlUpdateStrategy : Value;
  canceledNavigationResolution : Value
}.

Definition set_urlHandlingStrategy (v : Value) (r : Router) : Router :=
  {| urlHandlingStrategy := v;
     routeReuseStrategy := routeReuseStrategy r;
     titleStrategy := titleStrategy r;
     errorHandler := errorHandler r;
     malformedUriErrorHandler := malformedUriErrorHandler r;
     onSameUrlNavigation := onSameUrlNavigation r;
     paramsInheritanceStrategy := paramsInheritanceStrategy r;
     relativeLinkResolution := relativeLinkResolution r;
     urlUpdateStrategy := urlUpdateStrategy r;
     canceledNavigationResolution := canceledNavigationResolution r |}.

Definition set_routeReuseStrategy (v : Value) (r : Router) : Router :=
  {| urlHandlingStrategy := urlHandlingStrategy r;
     routeReuseStrategy := v;
     titleStrategy := titleStrategy r;
     errorHandler := errorHandler r;
     malformedUriErrorHandler := malformedUriErrorHandler r;
     onSameUrlNavigation := onSameUrlNavigation r;
     paramsInheritanceStrategy := paramsInheritanceStrategy r;
     relativeLinkResolution := relativeLinkResolution r;
     urlUpdateStrategy := urlUpdateStrategy r;
     canceledNavigationResolution := canceledNavigationResolution r |}.

Definition set_titleStrategy (v : Value) (r : Router) : Router :=
  {| urlHandlingStrategy := urlHandlingStrategy r;
     routeReuseStrategy := routeReuseStrategy r;
     titleStrategy := v;
     errorHandler := errorHandler r;
     malformedUriErrorHandler := malformedUriErrorHandler r;
     onSameUrlNavigation := onSameUrlNavigation r;
     paramsInheritanceStrategy := paramsInheritanceStrategy r;
     relativeLinkResolution := relativeLinkResolution r;
     urlUpdateStrategy := urlUpdateStrategy r;
     canceledNavigationResolution := canceledNavigationResolution r |}.

Definition set_errorHandler (v : Value) (r : Router) : Router :=
  {| urlHandlingStrategy := urlHandlingStrategy r;
     routeReuseStrategy := routeReuseStrategy r;
     titleStrategy := titleStrategy r;
     errorHandler := v;
     malformedUriErrorHandler := malformedUriErrorHandler r;
     onSameUrlNavigation := onSameUrlNavigation r;
     paramsInheritanceStrategy := paramsInheritanceStrategy r;
     relativeLinkResolution := relativeLinkResolution r;
     urlUpdateStrategy := urlUpdateStrategy r;
     canceledNavigationResolution := canceledNavigationResolution r |}.

Definition set_malformedUriErrorHandler (v : Value) (r : Router) : Router :=
  {| urlHandlingStrategy := urlHandlingStrategy r;
     routeReuseStrategy := routeReuseStrategy r;
     titleStrategy := titleStrategy r;
     errorHandler := errorHandler r;
     malformedUriErrorHandler := v;
     onSameUrlNavigation := onSameUrlNavigation r;
     paramsInheritanceStrategy := paramsInheritanceStrategy r;
     relativeLinkResolution := relativeLinkResolution r;
     urlUpdateStrategy := urlUpdateStrategy r;
     canceledNavigationResolution := canceledNavigationResolution r |}.

Definition set_onSameUrlNavigation (v : Value) (r : Router) : Router :=
  {| urlHandlingStrategy := urlHandlingStrategy r;
     routeReuseStrategy := routeReuseStrategy r;
     titleStrategy := titleStrategy r;
     errorHandler := errorHandler r;
     malformedUriErrorHandler := malformedUriErrorHandler r;
     onSameUrlNavigation := v;
     paramsInheritanceStrategy := paramsInheritanceStrategy r;
     relativeLinkResolution := relativeLinkResolution r;
     urlUpdateStrategy := urlUpdateStrategy r;
     canceledNavigationResolution := canceledNavigationResolution r |}.

Definition set_paramsInheritanceStrategy (v : Value) (r : Router) : Router :=
  {| urlHandlingStrategy := urlHandlingStrategy r;
     routeReuseStrategy := routeReuseStrategy r;
     titleStrategy := titleStrategy r;
     errorHandler := errorHandler r;
     malformedUriErrorHandler := malformedUriErrorHandler r;
     onSameUrlNavigation := onSameUrlNavigation r;
     paramsInheritanceStrategy := v;
     relativeLinkResolution := relativeLinkResolution r;
     urlUpdateStrategy := urlUpdateStrategy r;
     canceledNavigationResolution := canceledNavigationResolution r |}.

Definition set_relativeLinkResolution (v : Value) (r : Router) : Router :=
  {| urlHandlingStrategy := urlHandlingStrategy r;
     routeReuseStrategy := routeReuseStrategy r;
     titleStrategy := titleStrategy r;
     errorHandler := errorHandler r;
     malformedUriErrorHandler := malformedUriErrorHandler r;
     onSameUrlNavigation := onSameUrlNavigation r;
     paramsInheritanceStrategy := paramsInheritanceStrategy r;
     relativeLinkResolution := v;
     urlUpdateStrategy := urlUpdateStrategy r;
     canceledNavigationResolution := canceledNavigationResolution r |}.

Definition set_urlUpdateStrategy (v : Value) (r : Router) : Router :=
  {| urlHandlingStrategy := urlHandlingStrategy r;
     routeReuseStrategy := routeReuseStrategy r;
     titleStrategy := titleStrategy r;
     errorHandler := errorHandler r;
     malformedUriErrorHandler := malformedUriErrorHandler r;
     onSameUrlNavigation := onSameUrlNavigation r;
     paramsInheritanceStrategy := paramsInheritanceStrategy r;
     relativeLinkResolution := relativeLinkResolution r;
     urlUpdateStrategy := v;
     canceledNavigationResolution := canceledNavigationResolution r |}.

Definition set_canceledNavigationResolution (v : Value) (r : Router) : Router :=
  {| urlHandlingStrategy := urlHandlingStrategy r;
     routeReuseStrategy := routeReuseStrategy r;
     titleStrategy := titleStrategy r;
     errorHandler := errorHandler r;
     malformedUriErrorHandler := malformedUriErrorHandler r;
     onSameUrlNavigation := onSameUrlNavigation r;
     paramsInheritanceStrategy := paramsInheritanceStrategy r;
     relativeLinkResolution := relativeLinkResolution r;
     urlUpdateStrategy := urlUpdateStrategy r;
     canceledNavigationResolution := v |}.

End Engine.

(** [if (c) { router.f = v; }] *)
Definition assign_if (c : Value) (set : Value -> Engine.Router -> Engine.Router)
    (router : Engine.Router) : Engine.Router :=
  if truthy c then set c router else router.

(** [assignExtraOptionsToRouter(opts, router)] *)
Definition assignExtraOptionsToRouter (opts : Config.ExtraOptions)
    (router : Engine.Router) : Engine.Router :=
  let router :=
    assign_if (Config.errorHandler opts) Engine.set_errorHandler router in
  let router :=
    assign_if (Config.malformedUriErrorHandler opts)
      Engine.set_malformedUriErrorHandler router in
  let router :=
    assign_if (Config.onSameUrlNavigation opts)
      Engine.set_onSameUrlNavigation router in
  let router :=
    assign_if (Config.paramsInheritanceStrategy opts)
      Engine.set_paramsInheritanceStrategy router in
  let router :=
    assign_if (Config.relativeLinkResolution opts)
      Engine.set_relativeLinkResolution router in
  let router :=
    assign_if (Config.urlUpdateStrategy opts)
      Engine.set_urlUpdateStrategy router in
  assign_if (Config.canceledNavigationResolution opts)
    Engine.set_canceledNavigationResolution router.

(** What a function of this file can throw. *)
Inductive Thrown :=
| TypeError
| Error (message : string).

(** [typeof ngDevMode === 'undefined' || ngDevMode]. [None] is the global not
    being declared; [typeof] is also ['undefined'] for a declared global that
    holds [undefined]. *)
Definition dev_mode (ngDevMode : option Value) : bool :=
  match ngDevMode with
  | None => true
  | Some (Prim JsUndefined) => true
  | Some v => truthy v
  end.

Section SetupRouter.

Context {Route : Type}.

(** [flatten] of [utils/collection] and the constructor of [Router] (with the
    serializer, contexts, location, injector and compiler of the call) are
    not part of this file. *)
Variable flatten : list (list Route) -> list Route.
Variable Router_new : list Route -> Engine.Router.

(** [setupRouter(..., config, opts = {}, defaultTitleStrategy, titleStrategy?,
    urlHandlingStrategy?, routeReuseStrategy?)]: the router it returns, and
    whether it subscribed the console logger to [router.events]. Reading a
    property of [null] throws. *)
Definition setupRouter (ngDevMode : option Value)
    (config : list (list Route)) (opts : OptionsArg)
    (defaultTitleStrategy titleStrategy urlHandlingStrategy
       routeReuseStrategy : Value)
  : Thrown + Engine.Router * bool :=
  let router := Router_new (flatten config) in
  let router :=
    assign_if urlHandlingStrategy Engine.set_urlHandlingStrategy router in
  let router :=
    assign_if routeReuseStrategy Engine.set_routeReuseStrategy router in
  let router :=
    Engine.set_titleStrategy
      (nullish_coalesce titleStrategy defaultTitleStrategy) router in
  match opts with
  | ArgNull => inl TypeError
  | ArgUndefined =>
      let opts := Config.empty in
      let router := assignExtraOptionsToRouter opts router in
      inr (router, dev_mode ngDevMode && truthy (Config.enableTracing opts))
  | ArgObject opts =>
      let router := assignExtraOptionsToRouter opts router in
      inr (router, dev_mode ngDevMode && truthy (Config.enableTracing opts))
  end.

End SetupRouter.

(** [provideForRootGuard(router)] *)
Definition provideForRootGuard (ngDevMode : option Value) (router : Value)
  : Thrown + Value :=
  if dev_mode ngDevMode && truthy router then
    inl (Error "RouterModule.forRoot() called twice. Lazy loaded modules should use RouterModule.forChild() instead.")
  else
    inr (Prim (JsString "guarded")).

Section LocationStrategies.

(** The constructors of [HashLocationStrategy] and [PathLocationStrategy]
    belong to [@angular/common]; each returns the strategy it builds or
    throws. *)
Context {Strategy : Type}.
Variable new_HashLocationStrategy : Value -> Value -> Thrown + Strategy.
Variable new_PathLocationStrategy : Value -> Value -> Thrown + Strategy.

(** [provideLocationStrategy(platformLocationStrategy, baseHref,
    options = {})]: reading [useHash] of [null] throws; otherwise the result
    is that of the constructor called. *)
Definition provideLocationStrategy (platformLocationStrategy baseHref : Value)
    (options : OptionsArg) : Thrown + Strategy :=
  match options with
  | ArgNull => inl TypeError
  | ArgUndefined =>
      if truthy (Config.useHash Config.empty)
      then new_HashLocationStrategy platformLocationStrategy baseHref
      else new_PathLocationStrategy platformLocationStrategy baseHref
  | ArgObject o =>
      if truthy (Config.useHash o)
      then new_HashLocationStrategy platformLocationStrategy baseHref
      else new_PathLocationStrategy platformLocationStrategy baseHref
  end.

End LocationStrategies.

(** ** Providers *)

Module DI.

(** The tokens and classes the providers of this file name. *)
Inductive t :=
| Location
| UrlSerializer
| DefaultUrlSerializer
| Router
| ChildrenOutletContexts
| Injector
| Compiler
| ROUTES
| ROUTER_CONFIGURATION
| DefaultTitleStrategy
| TitleStrategy
| UrlHandlingStrategy
| RouteReuseStrategy
| ActivatedRoute
| RouterPreloader
| NoPreloading
| PreloadAllModules
| RouterConfigLoader
| ROUTER_FORROOT_GUARD
| LocationStrategy
| PlatformLocation
| APP_BASE_HREF
| RouterScroller
| ViewportScroller
| PreloadingStrategy
| NgProbeToken
| RouterInitializer
| APP_INITIALIZER
| ROUTER_INITIALIZER
| APP_BOOTSTRAP_LISTENER
| ANALYZE_FOR_ENTRY_COMPONENTS.

(** An entry of [deps]: a token, possibly with [new Optional()] and
    [new SkipSelf()]. *)
Record Dep := {
  dep_token : t;
  dep_optional : bool;
  dep_skipSelf : bool
}.

Definition dep (token : t) : Dep :=
  {| dep_token := token; dep_optional := false; dep_skipSelf := false |}.
Definition optional (token : t) : Dep :=
  {| dep_token := token; dep_optional := true; dep_skipSelf := false |}.
Definition optional_skipSelf (token : t) : Dep :=
  {| dep_token := token; dep_optional := true; dep_skipSelf := true |}.

(** The factory functions of this file. *)
Inductive Factory :=
| setupRouter
| rootRoute
| provideForRootGuard
| provideLocationStrategy
| createRouterScroller
| routerNgProbeToken
| getAppInitializer
| getBootstrapListener.

(** What [useExisting] points to: a token, or whatever object the
    configuration holds. *)
Inductive Existing :=
| ExistingToken (token : t)
| ExistingValue (v : Value).

End DI.

Global Instance DI_eq_dec : EqDecision DI.t.
Proof. solve_decision. Defined.

Section Providers.

Context {Routes : Type}.

(** What [useValue] holds in this file. *)
Inductive ProvidedValue :=
| RoutesValue (routes : Routes)
| OptionsValue (o : Config.ExtraOptions).

(** A provider; an array of providers is a provider too. *)
#[warnings="-register-all"] Inductive Provider :=
| TypeProvider (cls : DI.t)
| UseClass (provide cls : DI.t)
| UseFactory (provide : DI.t) (multi : bool) (f : DI.Factory)
    (deps : list DI.Dep)
| UseValue (provide : DI.t) (multi : bool) (v : ProvidedValue)
| UseExisting (provide : DI.t) (multi : bool) (existing : DI.Existing)
| ProviderArray (ps : list Provider).

(** [ROUTER_PROVIDERS] *)
Definition ROUTER_PROVIDERS : list Provider :=
  [ TypeProvider DI.Location;
    UseClass DI.UrlSerializer DI.DefaultUrlSerializer;
    UseFactory DI.Router false DI.setupRouter
      [ DI.dep DI.UrlSerializer; DI.dep DI.ChildrenOutletContexts;
        DI.dep DI.Location; DI.dep DI.Injector; DI.dep DI.Compiler;
        DI.dep DI.ROUTES; DI.dep DI.ROUTER_CONFIGURATION;
        DI.dep DI.DefaultTitleStrategy; DI.optional DI.TitleStrategy;
        DI.optional DI.UrlHandlingStrategy;
        DI.optional DI.RouteReuseStrategy ];
    TypeProvider DI.ChildrenOutletContexts;
    UseFactory DI.ActivatedRoute false DI.rootRoute [DI.dep DI.Router];
    TypeProvider DI.RouterPreloader;
    TypeProvider DI.NoPreloading;
    TypeProvider DI.PreloadAllModules;
    UseValue DI.ROUTER_CONFIGURATION false (OptionsValue Config.tracing_off);
    TypeProvider DI.RouterConfigLoader ].

(** [provideRoutes(routes)] *)
Definition provideRoutes (routes : Routes) : list Provider :=
  [ UseValue DI.ANALYZE_FOR_ENTRY_COMPONENTS true (RoutesValue routes);
    UseValue DI.ROUTES true (RoutesValue routes) ].

(** [provideRouterInitializer()] *)
Definition provideRouterInitializer : list Provider :=
  [ TypeProvider DI.RouterInitializer;
    UseFactory DI.APP_INITIALIZER true DI.getAppInitializer
      [DI.dep DI.RouterInitializer];
    UseFactory DI.ROUTER_INITIALIZER false DI.getBootstrapListener
      [DI.dep DI.RouterInitializer];
    UseExisting DI.APP_BOOTSTRAP_LISTENER true
      (DI.ExistingToken DI.ROUTER_INITIALIZER) ].

(** [config ? config : {}] *)
Definition config_or_empty (config : OptionsArg) : Config.ExtraOptions :=
  match config with
  | ArgObject o => o
  | _ => Config.empty
  end.

(** [config && config.preloadingStrategy ? config.preloadingStrategy :
    NoPreloading] *)
Definition preloading_or_none (config : OptionsArg) : DI.Existing :=
  match config with
  | ArgObject o =>
      if truthy (Config.preloadingStrategy o)
      then DI.ExistingValue (Config.preloadingStrategy o)
      else DI.ExistingToken DI.NoPreloading
  | _ => DI.ExistingToken DI.NoPreloading
  end.

(** [RouterModule.forRoot(routes, config?)], its [providers]. *)
Definition forRoot (routes : Routes) (config : OptionsArg) : list Provider :=
  [ ProviderArray ROUTER_PROVIDERS;
    ProviderArray (provideRoutes routes);
    UseFactory DI.ROUTER_FORROOT_GUARD false DI.provideForRootGuard
      [DI.optional_skipSelf DI.Router];
    UseValue DI.ROUTER_CONFIGURATION false
      (OptionsValue (config_or_empty config));
    UseFactory DI.LocationStrategy false DI.provideLocationStrategy
      [ DI.dep DI.PlatformLocation; DI.optional DI.APP_BASE_HREF;
        DI.dep DI.ROUTER_CONFIGURATION ];
    UseFactory DI.RouterScroller false DI.createRouterScroller
      [ DI.dep DI.Router; DI.dep DI.ViewportScroller;
        DI.dep DI.ROUTER_CONFIGURATION ];
    UseExisting DI.PreloadingStrategy false (preloading_or_none config);
    UseFactory DI.NgProbeToken true DI.routerNgProbeToken [];
    ProviderArray provideRouterInitializer ].


(** The providers of a list with the nested arrays opened, in order. *)
Fixpoint flat (p : Provider) : list Provider :=
  match p with
  | ProviderArray ps =>
      (fix go (ps : list Provider) : list Provider :=
         match ps with
         | [] => []
         | q :: ps' => flat q ++ go ps'
         end) ps
  | _ => [p]
  end.

Definition flat_all (ps : list Provider) : list Provider :=
  flat (ProviderArray ps).

(** The token a provider is registered under, and whether it is [multi]. *)
Definition provided (p : Provider) : option DI.t :=
  match p with
  | TypeProvider cls => Some cls
  | UseClass provide _ | UseFactory provide _ _ _ | UseValue provide _ _
  | UseExisting provide _ _ => Some provide
  | ProviderArray _ => None
  end.

Definition is_multi (p : Provider) : bool :=
  match p with
  | UseFactory _ multi _ _ | UseValue _ multi _ | UseExisting _ multi _ =>
      multi
  | _ => false
  end.

(** The providers registered under [token], in order. *)
Definition providers_of (token : DI.t) (ps : list Provider) : list Provider :=
  List.filter (fun p => bool_decide (provided p = Some token)) (flat_all ps).

End Providers.

(** ** States a fresh instance can reach *)

(** Nothing paused yet, or one navigation [n] that is paused, was released,
    or came after the signal. *)
Definition pause_shape (w : World) : Prop :=
  let s := resultOfPreactivationDone (self w) in
  (initNavigation (self w) = false /\ observers s = [] /\ notified w = [])
  \/ exists n,
       initNavigation (self w) = true
       /\ ((isStopped s = false /\ observers s = [n] /\ notified w = [])
           \/ (isStopped s = true /\ observers s = []
               /\ notified w = [(n, Next); (n, Complete)])
           \/ (isStopped s = true /\ observers s = []
               /\ notified w = [(n, Complete)])).

(** The instance while the handler has never been assigned. *)
Definition never_hooked (w : World) : Prop :=
  hook w = DefaultHook
  /\ initNavigation (self w) = false
  /\ observers (resultOfPreactivationDone (self w)) = []
  /\ notified w = [].

(** No promise waits for the gate. *)
Definition none_waiting (w : World) : Prop :=
  forall k, phases w !! k <> Some Waiting.

(** Every option [assignExtraOptionsToRouter] would copy from [o'], it also
    copies from [o]. *)
Definition covers (o o' : Config.ExtraOptions) : bool :=
  implb (truthy (Config.errorHandler o')) (truthy (Config.errorHandler o))
  && implb (truthy (Config.malformedUriErrorHandler o'))
       (truthy (Config.malformedUriErrorHandler o))
  && implb (truthy (Config.onSameUrlNavigation o'))
       (truthy (Config.onSameUrlNavigation o))
  && implb (truthy (Config.paramsInheritanceStrategy o'))
       (truthy (Config.paramsInheritanceStrategy o))
  && implb (truthy (Config.relativeLinkResolution o'))
       (truthy (Config.relativeLinkResolution o))
  && implb (truthy (Config.urlUpdateStrategy o'))
       (truthy (Config.urlUpdateStrategy o))
  && implb (truthy (Config.canceledNavigationResolution o'))
       (truthy (Config.canceledNavigationResolution o)).

(** [c ? c : v] *)
Definition pick (c v : Value) : Value := if truthy c then c else v.

(** Two option objects hold the same seven options that
    [assignExtraOptionsToRouter] reads. *)
Definition same_copied (o o' : Config.ExtraOptions) : bool :=
  bool_decide (Config.errorHandler o = Config.errorHandler o')
  && bool_decide (Config.malformedUriErrorHandler o
                  = Config.malformedUriErrorHandler o')
  && bool_decide (Config.onSameUrlNavigation o
                  = Config.onSameUrlNavigation o')
  && bool_decide (Config.paramsInheritanceStrategy o
                  = Config.paramsInheritanceStrategy o')
  && bool_decide (Config.relativeLinkResolution o
                  = Config.relativeLinkResolution o')
  && bool_decide (Config.urlUpdateStrategy o = Config.urlUpdateStrategy o')
  && bool_decide (Config.canceledNavigationResolution o
                  = Config.canceledNavigationResolution o').

(** Sample options and a sample router. *)
Definition sample_options : Config.ExtraOptions :=
  {| Config.enableTracing := Prim (JsBoolean true);
     Config.useHash := Prim (JsBoolean true);
     Config.initialNavigation := JsString "enabledBlocking";
     Config.errorHandler := Obj 1;
     Config.preloadingStrategy := Obj 2;
     Config.onSameUrlNavigation := Prim (JsString "reload");
     Config.scrollPositionRestoration := Prim (JsString "top");
     Config.anchorScrolling := Prim JsUndefined;
     Config.scrollOffset := Obj 3;
     Config.paramsInheritanceStrategy := Prim JsUndefined;
     Config.malformedUriErrorHandler := Prim JsUndefined;
     Config.urlUpdateStrategy := Prim (JsString "eager");
     Config.relativeLinkResolution := Prim JsUndefined;
     Config.canceledNavigationResolution := Prim JsUndefined |}.

Definition falsy_options : Config.ExtraOptions :=
  {| Config.enableTracing := Prim (JsBoolean true);
     Config.useHash := Prim (JsBoolean true);
     Config.initialNavigation := JsString "disabled";
     Config.errorHandler := Prim JsNull;
     Config.preloadingStrategy := Obj 2;
     Config.onSameUrlNavigation := Prim (JsString "");
     Config.scrollPositionRestoration := Prim (JsString "top");
     Config.anchorScrolling := Prim JsUndefined;
     Config.scrollOffset := Obj 3;
     Config.paramsInheritanceStrategy := Prim (JsBoolean false);
     Config.malformedUriErrorHandler := Prim JsUndefined;
     Config.urlUpdateStrategy := Prim JsUndefined;
     Config.relativeLinkResolution := Prim JsNull;
     Config.canceledNavigationResolution := Prim JsUndefined |}.

Definition sample_router : Engine.Router :=
  {| Engine.urlHandlingStrategy := Obj 10;
     Engine.routeReuseStrategy := Obj 11;
     Engine.titleStrategy := Obj 12;
     Engine.errorHandler := Obj 13;
     Engine.malformedUriErrorHandler := Obj 14;
     Engine.onSameUrlNavigation := Prim (JsString "ignore");
     Engine.paramsInheritanceStrategy := Prim (JsString "emptyOnly");
     Engine.relativeLinkResolution := Prim (JsString "corrected");
     Engine.urlUpdateStrategy := Prim (JsString "deferred");
     Engine.canceledNavigationResolution := Prim (JsString "replace") |}.

(** ** Vocabulary of the statements *)

(** The five lookups every call of [bootstrapListener] starts with. *)
Definition bootstrap_lookups : list Event :=
  [InjectorGet Token.ROUTER_CONFIGURATION; InjectorGet Token.RouterPreloader;
   InjectorGet Token.RouterScroller; InjectorGet Token.Router;
   InjectorGet Token.ApplicationRef].

(** The calls [bootstrapListener] makes on the first root after its
    lookups. *)
Definition bootstrap_effects (opts : ExtraOptions) (app : ApplicationRef)
  : list Event :=
  (if strict_eq_string (initialNavigation opts) "enabledNonBlocking"
      || strict_eq_undefined (initialNavigation opts)
   then [RouterInitialNavigation] else [])
  ++ [SetUpPreloading; ScrollerInit;
      ResetRootComponentType (componentTypes app !! 0);
      SubjectNext; SubjectComplete].

(** The navigations that reach pre-activation in a run, in order. *)
Fixpoint preactivations (ops : list Op) : list NavigationId :=
  match ops with
  | [] => []
  | PreActivation n :: ops' => n :: preactivations ops'
  | _ :: ops' => preactivations ops'
  end.

(** The subject for the first of [m] invocations, [of(null)] for the
    others. *)
Definition first_only (m : nat) : list HookResult :=
  match m with
  | 0 => []
  | S m' => ReturnsSubject :: replicate m' ReturnsOfNull
  end.

(** Between the callback of call [k] under ['enabledBlocking'] and the first
    pre-activation: no navigation reaches pre-activation, the host has not
    bootstrapped the first root (it waits for the promise), and the callback
    of no other call of [appInitializer] runs. *)
Definition quiet (k : PhaseId) (op : Op) : bool :=
  match op with
  | PreActivation _ => false
  | CallBootstrapListener app ref => negb (is_first_root app ref)
  | GateFulfilled j => bool_decide (j = k)
  | _ => true
  end.

(** The instance between the callback of call [k] and the first
    pre-activation: the handler of [k] is in the slot, the promise is
    pending, nothing has touched the subject. *)
Definition blocked (k : PhaseId) (s : Subject)
    (ntf : list (NavigationId * Notification)) (w : World) : Prop :=
  hook w = InitializerHook k
  /\ phases w !! k = Some (Ran Pending)
  /\ initNavigation (self w) = false
  /\ resultOfPreactivationDone (self w) = s
  /\ notified w = ntf.

(** The instance after the first pre-activation and before the first root is
    bootstrapped: [initNavigation] is set, the subject is open with its
    observers, nobody has been told anything. *)
Definition pausing (s : Subject) (ntf : list (NavigationId * Notification))
    (w : World) : Prop :=
  initNavigation (self w) = true
  /\ resultOfPreactivationDone (self w) = s
  /\ notified w = ntf.

(** A host with one composed root, and one with a second root composed
    after it. *)
Definition one_root : ApplicationRef :=
  {| components := [7]; componentTypes := [70] |}.
Definition two_roots : ApplicationRef :=
  {| components := [7; 8]; componentTypes := [70; 80] |}.

Definition with_policy (v : JsValue) : ExtraOptions :=
  {| initialNavigation := v |}.

(** * Properties *)

(** ** Runs *)

Section Runs.

Variable opts : ExtraOptions.

Lemma run_nil w : run opts w [] = w.
Proof. reflexivity. Qed.

Lemma run_cons w op ops :
  run opts w (op :: ops) = run opts (step opts w op) ops.
Proof.
  unfold run, step, world_after. cbn [perform_all]. unfold bind.
  destruct (perform opts op w) as [[[] w1] e1]. cbn.
  destruct (perform_all opts ops w1) as [[[] w2] e2]. reflexivity.
Qed.

Lemma run_trace_nil w : run_trace opts w [] = [].
Proof. reflexivity. Qed.

Lemma run_trace_cons w op ops :
  run_trace opts w (op :: ops)
  = step_trace opts w op ++ run_trace opts (step opts w op) ops.
Proof.
  unfold run_trace, step_trace, step, world_after, trace_of.
  cbn [perform_all]. unfold bind.
  destruct (perform opts op w) as [[[] w1] e1]. cbn.
  destruct (perform_all opts ops w1) as [[[] w2] e2]. reflexivity.
Qed.

Lemma run_app w ops1 ops2 :
  run opts w (ops1 ++ ops2) = run opts (run opts w ops1) ops2.
Proof.
  revert w. induction ops1 as [|op ops1 IH]; intros w; [reflexivity|].
  cbn [app]. rewrite !run_cons. apply IH.
Qed.

Lemma run_trace_app w ops1 ops2 :
  run_trace opts w (ops1 ++ ops2)
  = run_trace opts w ops1 ++ run_trace opts (run opts w ops1) ops2.
Proof.
  revert w. induction ops1 as [|op ops1 IH]; intros w; [reflexivity|].
  cbn [app]. rewrite !run_trace_cons, run_cons, IH, app_assoc. reflexivity.
Qed.

Lemma run_one w op : run opts w [op] = step opts w op.
Proof. rewrite run_cons. reflexivity. Qed.

Lemma run_trace_one w op : run_trace opts w [op] = step_trace opts w op.
Proof. rewrite run_trace_cons, run_trace_nil, app_nil_r. reflexivity. Qed.

End Runs.

(** Unfolds one step down to the world's fields. *)
Ltac unfold_step :=
  unfold step, step_trace, world_after, trace_of, perform, gate_fulfilled,
    gate_rejected, preactivation, appInitializer, appInitializer_callback,
    afterPreactivation, bootstrapListener, ngOnDestroy, resolve, then_,
    on_subject, Subject_next, Subject_complete, Subject_subscribe, this,
    set_this, get_hook, set_hook, get_phase, set_phase, emit, bind,
    ret, fired, paused, promise_of, PhaseId, NavigationId in *.

Ltac reduce_step :=
  cbn [self hook phases notified initNavigation destroyed
       resultOfPreactivationDone isStopped observers fst snd app negb andb
       orb is_first_root_bootstrap is_preactivation settles_gate] in *.

(** Splits on the scrutinee of the first [match] or [if] in the goal. *)
Ltac case_step :=
  match goal with
  | |- context [match ?x with _ => _ end] =>
      lazymatch x with
      | context [match _ with _ => _ end] => fail
      | negb ?b => destruct b eqn:?
      | orb ?b _ => destruct b eqn:?
      | _ => destruct x eqn:?
      end
  end.

(** Reads back the promise just written. *)
Ltac phase_lookup :=
  repeat rewrite list_lookup_insert_eq in *
    by (rewrite ?length_insert; eapply lookup_lt_Some; eassumption).

Ltac step_cases :=
  unfold_step;
  repeat first [progress reduce_step | progress phase_lookup | case_step].

(** Lookups in the list of promises after updates at other indices. *)
Ltac lookup_solve :=
  repeat match goal with
    | H : bool_decide _ = false |- _ => apply bool_decide_eq_false in H
    | H : bool_decide _ = true |- _ => apply bool_decide_eq_true in H
    end;
  repeat (rewrite list_lookup_insert_ne by (intros ->; congruence));
  try done; try congruence.

(** ** One step at a time *)

Section Steps.

Variable opts : ExtraOptions.

(** [destroyed] is only ever set. *)
Lemma destroyed_step w op :
  destroyed (self w) = true -> destroyed (self (step opts w op)) = true.
Proof. destruct w as [[i d [st obs]] h ps ntf]; destruct op; step_cases; intros; congruence. Qed.

Lemma destroyed_run w ops :
  destroyed (self w) = true -> destroyed (self (run opts w ops)) = true.
Proof.
  revert w. induction ops as [|op ops IH]; intros w Hd; [exact Hd|].
  rewrite run_cons. apply IH, destroyed_step, Hd.
Qed.

(** [initNavigation] is only ever set. *)
Lemma initNavigation_step w op :
  initNavigation (self w) = true ->
  initNavigation (self (step opts w op)) = true.
Proof.
  destruct w as [[i d [st obs]] h ps ntf]; destruct op; step_cases; intros;
    congruence.
Qed.

(** A stopped subject stays stopped. *)
Lemma fired_step w op : fired w = true -> fired (step opts w op) = true.
Proof.
  destruct w as [[i d [st obs]] h ps ntf]; destruct op; step_cases; intros;
    congruence.
Qed.

(** Only [bootstrapListener] on the first root stops the subject ... *)
Lemma fired_step_inv w op :
  fired w = false -> fired (step opts w op) = true ->
  is_first_root_bootstrap op = true.
Proof.
  destruct w as [[i d [st obs]] h ps ntf]; destruct op; step_cases; intros;
    congruence.
Qed.

(** ... and it always does. *)
Lemma first_root_fires w app ref :
  is_first_root app ref = true ->
  fired (step opts w (CallBootstrapListener app ref)) = true.
Proof.
  destruct w as [[i d [st obs]] h ps ntf]; step_cases; intros; congruence.
Qed.

(** Once the initializer's handler sits in the hook slot, only such a
    handler ever does. *)
Lemma hook_step w op k :
  hook w = InitializerHook k ->
  exists k', hook (step opts w op) = InitializerHook k'.
Proof.
  destruct w as [[i d [st obs]] h ps ntf]; destruct op; step_cases; intros;
    subst; eauto.
Qed.

(** The promise of call [k] keeps waiting as long as its gate has not
    settled. *)
Lemma waiting_step w op k :
  phases w !! k = Some Waiting -> settles_gate k op = false ->
  phases (step opts w op) !! k = Some Waiting.
Proof.
  destruct w as [[i d [st obs]] h ps ntf]; destruct op; step_cases; intros.
  all: lookup_solve.
  apply lookup_app_l_Some; assumption.
Qed.

End Steps.

(** ** The branches taken under each value of [initialNavigation] *)

Section Policies.

Variable opts : ExtraOptions.

Let v := initialNavigation opts.

Lemma disabled_branches :
  v = JsString "disabled" ->
  strict_eq_string v "disabled" = true
  /\ strict_eq_string v "enabledNonBlocking" = false
  /\ strict_eq_undefined v = false.
Proof. intros ->. repeat split; reflexivity. Qed.

Lemma enabledBlocking_branches :
  v = JsString "enabledBlocking" ->
  strict_eq_string v "disabled" = false
  /\ strict_eq_string v "enabledBlocking" = true
  /\ strict_eq_string v "enabledNonBlocking" = false
  /\ strict_eq_undefined v = false.
Proof. intros ->. repeat split; reflexivity. Qed.

Lemma enabledNonBlocking_branches :
  v = JsString "enabledNonBlocking" ->
  strict_eq_string v "disabled" = false
  /\ strict_eq_string v "enabledBlocking" = false
  /\ strict_eq_string v "enabledNonBlocking" = true.
Proof. intros ->. repeat split; reflexivity. Qed.

Lemma undefined_branches :
  v = JsUndefined ->
  strict_eq_string v "disabled" = false
  /\ strict_eq_string v "enabledBlocking" = false
  /\ strict_eq_string v "enabledNonBlocking" = false
  /\ strict_eq_undefined v = true.
Proof. intros ->. repeat split; reflexivity. Qed.

(** A value that is neither one of the three policies nor [undefined] fails
    all four tests. *)
Lemma unrecognized_branches :
  ~ InitialNavigation v -> v <> JsUndefined ->
  strict_eq_string v "disabled" = false
  /\ strict_eq_string v "enabledBlocking" = false
  /\ strict_eq_string v "enabledNonBlocking" = false
  /\ strict_eq_undefined v = false.
Proof.
  unfold InitialNavigation. intros Hv Hu.
  destruct v as [| |b|s]; try congruence; cbn; repeat split; try reflexivity.
  all: apply bool_decide_eq_false; intros ->; tauto.
Qed.

(** A value outside the three policies, [undefined] included, fails the
    three string tests. *)
Lemma not_policy_branches :
  ~ InitialNavigation v ->
  strict_eq_string v "disabled" = false
  /\ strict_eq_string v "enabledBlocking" = false
  /\ strict_eq_string v "enabledNonBlocking" = false.
Proof.
  unfold InitialNavigation. intros Hv.
  destruct v as [| |b|s]; cbn; repeat split; try reflexivity.
  all: apply bool_decide_eq_false; intros ->; tauto.
Qed.

End Policies.

(** ** What the callback of [appInitializer] does *)

Section Callback.

Variable opts : ExtraOptions.
Variable w : World.
Variable k : PhaseId.
Hypothesis Hwaiting : phases w !! k = Some Waiting.

(** Destroyed: no call at all, the promise is fulfilled. *)
Lemma callback_destroyed :
  destroyed (self w) = true ->
  step_trace opts w (GateFulfilled k) = []
  /\ step opts w (GateFulfilled k)
     = {| self := self w; hook := hook w;
          phases := <[k := Ran Fulfilled]> (phases w);
          notified := notified w |}.
Proof.
  destruct w as [[i d [st obs]] h ps ntf]. cbn in *. intros ->.
  step_cases; try congruence. split; reflexivity.
Qed.

(** ['disabled']: the location listener, then [resolve]. *)
Lemma callback_disabled :
  destroyed (self w) = false ->
  strict_eq_string (initialNavigation opts) "disabled" = true ->
  step_trace opts w (GateFulfilled k)
  = [InjectorGet Token.Router; InjectorGet Token.ROUTER_CONFIGURATION;
     SetUpLocationChangeListener; Resolve k]
  /\ step opts w (GateFulfilled k)
     = {| self := self w; hook := hook w;
          phases := <[k := Ran Fulfilled]> (phases w);
          notified := notified w |}.
Proof.
  destruct w as [[i d [st obs]] h ps ntf]. cbn in *. intros -> Hd.
  step_cases; try congruence.
  rewrite list_insert_insert_eq. split; reflexivity.
Qed.

(** ['enabledBlocking']: the handler goes into the hook slot, the initial
    navigation is started, the promise stays pending. *)
Lemma callback_enabledBlocking :
  destroyed (self w) = false ->
  strict_eq_string (initialNavigation opts) "disabled" = false ->
  strict_eq_string (initialNavigation opts) "enabledBlocking" = true ->
  step_trace opts w (GateFulfilled k)
  = [InjectorGet Token.Router; InjectorGet Token.ROUTER_CONFIGURATION;
     AssignAfterPreactivation k; RouterInitialNavigation]
  /\ step opts w (GateFulfilled k)
     = {| self := self w; hook := InitializerHook k;
          phases := <[k := Ran Pending]> (phases w);
          notified := notified w |}.
Proof.
  destruct w as [[i d [st obs]] h ps ntf]. cbn in *. intros -> Hd Hb.
  step_cases; try congruence. split; reflexivity.
Qed.

(** Anything else: [resolve] at once. *)
Lemma callback_otherwise :
  destroyed (self w) = false ->
  strict_eq_string (initialNavigation opts) "disabled" = false ->
  strict_eq_string (initialNavigation opts) "enabledBlocking" = false ->
  step_trace opts w (GateFulfilled k)
  = [InjectorGet Token.Router; InjectorGet Token.ROUTER_CONFIGURATION;
     Resolve k]
  /\ step opts w (GateFulfilled k)
     = {| self := self w; hook := hook w;
          phases := <[k := Ran Fulfilled]> (phases w);
          notified := notified w |}.
Proof.
  destruct w as [[i d [st obs]] h ps ntf]. cbn in *. intros -> Hd Hb.
  step_cases; try congruence.
  rewrite list_insert_insert_eq. split; reflexivity.
Qed.

(** The promise just written reads back. *)
Lemma promise_of_insert s h ntf st :
  promise_of {| self := s; hook := h;
                phases := <[k := Ran st]> (phases w);
                notified := ntf |} k = Some st.
Proof.
  unfold promise_of. cbn.
  rewrite list_lookup_insert_eq by (eapply lookup_lt_Some; eassumption).
  reflexivity.
Qed.

End Callback.

(** ** Counting calls along a run *)

Lemma count_app p es1 es2 : count p (es1 ++ es2) = count p es1 + count p es2.
Proof. unfold count. rewrite List.filter_app, length_app. reflexivity. Qed.

Section Counting.

Variable opts : ExtraOptions.
Variable p : Event -> bool.

(** A call no step makes is made by no run. *)
Lemma count_run_zero :
  (forall w op, count p (step_trace opts w op) = 0) ->
  forall w ops, count p (run_trace opts w ops) = 0.
Proof.
  intros Hstep w ops. revert w.
  induction ops as [|op ops IH]; intros w; [reflexivity|].
  rewrite run_trace_cons, count_app, Hstep, IH. reflexivity.
Qed.

(** A call made once by the steps that satisfy [f], and by no other step, is
    made as often as the run has such steps. *)
Lemma count_run_filter (f : Op -> bool) :
  (forall w op, count p (step_trace opts w op) = if f op then 1 else 0) ->
  forall w ops, count p (run_trace opts w ops) = length (List.filter f ops).
Proof.
  intros Hstep w ops. revert w.
  induction ops as [|op ops IH]; intros w; [reflexivity|].
  rewrite run_trace_cons, count_app, Hstep, IH. cbn [List.filter].
  destruct (f op); reflexivity.
Qed.

End Counting.

Lemma filter_none {A} (f : A -> bool) (l : list A) :
  Forall (fun x => f x = false) l -> List.filter f l = [].
Proof.
  induction 1 as [|x l Hx _ IH]; [reflexivity|].
  cbn [List.filter]. rewrite Hx. exact IH.
Qed.

Section CallsPerStep.

Variable opts : ExtraOptions.

(** [router.initialNavigation()] is called by the callback under
    ['enabledBlocking'] and by [bootstrapListener] on the first root under
    ['enabledNonBlocking'] or [undefined], and nowhere else. *)
Lemma initialNavigation_step_nonblocking w op :
  strict_eq_string (initialNavigation opts) "disabled" = false ->
  strict_eq_string (initialNavigation opts) "enabledBlocking" = false ->
  strict_eq_string (initialNavigation opts) "enabledNonBlocking"
  || strict_eq_undefined (initialNavigation opts) = true ->
  count is_initialNavigation (step_trace opts w op)
  = if is_first_root_bootstrap op then 1 else 0.
Proof.
  intros Hd Hb Hn. destruct w as [[i d [st obs]] h ps ntf].
  destruct op; step_cases; try reflexivity; try congruence.
  all: rewrite ?Heqb, ?Heqb0, ?Heqb1 in Hn; cbn in Hn; congruence.
Qed.

Lemma initialNavigation_step_never w op :
  strict_eq_string (initialNavigation opts) "enabledBlocking" = false ->
  strict_eq_string (initialNavigation opts) "enabledNonBlocking" = false ->
  strict_eq_undefined (initialNavigation opts) = false ->
  count is_initialNavigation (step_trace opts w op) = 0.
Proof.
  intros Hb Hn Hu. destruct w as [[i d [st obs]] h ps ntf].
  destruct op; step_cases; try reflexivity; congruence.
Qed.

Lemma setUpLocationChangeListener_step_never w op :
  strict_eq_string (initialNavigation opts) "disabled" = false ->
  count is_setUpLocationChangeListener (step_trace opts w op) = 0.
Proof.
  intros Hd. destruct w as [[i d [st obs]] h ps ntf].
  destruct op; step_cases; try reflexivity; congruence.
Qed.

End CallsPerStep.

(** ** [bootstrapListener], step by step *)

Section Bootstrap.

Variable opts : ExtraOptions.

(** Not the first root: the lookups, then [return]. *)
Lemma bootstrapListener_other_root w app ref :
  is_first_root app ref = false ->
  step opts w (CallBootstrapListener app ref) = w
  /\ step_trace opts w (CallBootstrapListener app ref) = bootstrap_lookups.
Proof.
  intros Hr. destruct w as [[i d [st obs]] h ps ntf].
  unfold bootstrap_lookups. step_cases; try congruence.
  split; reflexivity.
Qed.

(** The first root: the trace does not depend on the state. *)
Lemma bootstrapListener_first_root_trace w app ref :
  is_first_root app ref = true ->
  step_trace opts w (CallBootstrapListener app ref)
  = bootstrap_lookups ++ bootstrap_effects opts app.
Proof.
  intros Hr. destruct w as [[i d [st obs]] h ps ntf].
  unfold bootstrap_lookups, bootstrap_effects.
  step_cases; try congruence; reflexivity.
Qed.

(** The first root, subject still open: every observer is told [Next], then
    [Complete], and the subject is stopped. *)
Lemma bootstrapListener_first_root_open w app ref :
  is_first_root app ref = true -> fired w = false ->
  step opts w (CallBootstrapListener app ref)
  = {| self := {| initNavigation := initNavigation (self w);
                  destroyed := destroyed (self w);
                  resultOfPreactivationDone :=
                    {| isStopped := true; observers := [] |} |};
       hook := hook w; phases := phases w;
       notified :=
         (notified w
          ++ map (fun n => (n, Next))
               (observers (resultOfPreactivationDone (self w))))
         ++ map (fun n => (n, Complete))
              (observers (resultOfPreactivationDone (self w))) |}.
Proof.
  intros Hr Hf. destruct w as [[i d [st obs]] h ps ntf].
  step_cases; try congruence; reflexivity.
Qed.

(** The first root, subject already stopped: [next] and [complete] are
    called and change nothing. *)
Lemma bootstrapListener_first_root_stopped w app ref :
  is_first_root app ref = true -> fired w = true ->
  notified (step opts w (CallBootstrapListener app ref)) = notified w
  /\ resultOfPreactivationDone (self (step opts w (CallBootstrapListener app ref)))
     = resultOfPreactivationDone (self w).
Proof.
  intros Hr Hf. destruct w as [[i d [st obs]] h ps ntf].
  step_cases; try congruence; rewrite !app_nil_r; split; reflexivity.
Qed.

End Bootstrap.

(** ** The completion signal fires at most once *)

Section Firing.

Variable opts : ExtraOptions.

Lemma fired_run w ops : fired w = true -> fired (run opts w ops) = true.
Proof.
  revert w. induction ops as [|op ops IH]; intros w Hf; [exact Hf|].
  rewrite run_cons. apply IH, fired_step, Hf.
Qed.

Lemma fire_count_fired w ops : fired w = true -> fire_count opts w ops = 0.
Proof.
  revert w. induction ops as [|op ops IH]; intros w Hf; [reflexivity|].
  cbn [fire_count]. rewrite Hf, (IH _ (fired_step opts w op Hf)).
  reflexivity.
Qed.

Lemma fire_count_open w ops :
  fired w = false ->
  fire_count opts w ops
  = if existsb is_first_root_bootstrap ops then 1 else 0.
Proof.
  revert w. induction ops as [|op ops IH]; intros w Hf; [reflexivity|].
  cbn [fire_count existsb]. rewrite Hf. cbn [negb andb].
  destruct (is_first_root_bootstrap op) eqn:Hop.
  - destruct op; try discriminate. cbn in Hop.
    pose proof (first_root_fires opts w app ref Hop) as Hs.
    rewrite Hs, (fire_count_fired _ _ Hs). reflexivity.
  - destruct (fired (step opts w op)) eqn:Hs.
    + pose proof (fired_step_inv opts w op Hf Hs). congruence.
    + rewrite (IH _ Hs). reflexivity.
Qed.

Lemma fire_count_le w ops : fire_count opts w ops <= 1.
Proof.
  destruct (fired w) eqn:Hf.
  - rewrite fire_count_fired by assumption. lia.
  - rewrite fire_count_open by assumption.
    destruct (existsb _ _); lia.
Qed.

End Firing.

(** ** The handler pauses once *)

Section Handler.

Variable opts : ExtraOptions.

Lemma hook_results_app es1 es2 :
  hook_results (es1 ++ es2) = hook_results es1 ++ hook_results es2.
Proof.
  induction es1 as [|e es1 IH]; [reflexivity|].
  destruct e; cbn; rewrite ?IH; reflexivity.
Qed.

(** Only pre-activation calls the handler. *)
Lemma hook_results_other w op :
  is_preactivation op = false -> hook_results (step_trace opts w op) = [].
Proof.
  intros Hop. destruct w as [[i d [st obs]] h ps ntf].
  destruct op; try discriminate; step_cases; reflexivity.
Qed.

(** Only the handler sets [initNavigation]. *)
Lemma initNavigation_other w op :
  is_preactivation op = false ->
  initNavigation (self (step opts w op)) = initNavigation (self w).
Proof.
  intros Hop. destruct w as [[i d [st obs]] h ps ntf].
  destruct op; try discriminate; step_cases; reflexivity.
Qed.

(** Only pre-activation adds an observer. *)
Lemma observers_other w op m :
  is_preactivation op = false ->
  m ∈ observers (resultOfPreactivationDone (self (step opts w op))) ->
  m ∈ observers (resultOfPreactivationDone (self w)).
Proof.
  intros Hop. destruct w as [[i d [st obs]] h ps ntf].
  destruct op; try discriminate; step_cases; try done.
  all: intros Hm; apply elem_of_nil in Hm; destruct Hm.
Qed.

(** With [initNavigation] set, the handler returns [of(null)] and nobody is
    added to the subject. *)
Lemma preactivation_later w n :
  initNavigation (self w) = true ->
  step_trace opts w (PreActivation n) = [HookReturned n ReturnsOfNull]
  /\ step opts w (PreActivation n) = w.
Proof.
  destruct w as [[i d [st obs]] h ps ntf]. cbn. intros ->.
  step_cases; split; reflexivity.
Qed.

(** With [initNavigation] unset, the handler in the slot sets it, resolves
    its promise and returns the subject. *)
Lemma preactivation_first_trace w n k :
  hook w = InitializerHook k -> initNavigation (self w) = false ->
  step_trace opts w (PreActivation n)
  = [Resolve k; HookReturned n ReturnsSubject]
  /\ initNavigation (self (step opts w (PreActivation n))) = true
  /\ forall m, m ∈ observers (resultOfPreactivationDone
                               (self (step opts w (PreActivation n)))) ->
               m ∈ observers (resultOfPreactivationDone (self w)) \/ m = n.
Proof.
  destruct w as [[i d [st obs]] h ps ntf]. cbn. intros -> ->.
  step_cases; repeat split; try reflexivity; intros m Hm; auto.
  all: apply elem_of_app in Hm as [Hm|Hm]; [auto|].
  all: apply list_elem_of_singleton in Hm; auto.
Qed.

Lemma hook_results_later w ops :
  initNavigation (self w) = true ->
  hook_results (run_trace opts w ops)
  = replicate (length (preactivations ops)) ReturnsOfNull
  /\ forall m, m ∈ observers (resultOfPreactivationDone
                               (self (run opts w ops))) ->
               m ∈ observers (resultOfPreactivationDone (self w)).
Proof.
  revert w. induction ops as [|op ops IH]; intros w Hi.
  { split; [reflexivity|]. intros m Hm. exact Hm. }
  rewrite run_trace_cons, run_cons, hook_results_app.
  destruct (IH _ (initNavigation_step opts w op Hi)) as [IHr IHo].
  rewrite IHr. destruct (is_preactivation op) eqn:Hop.
  - destruct op; try discriminate.
    destruct (preactivation_later w n Hi) as [-> Hw].
    rewrite Hw in IHo |- *. split; [reflexivity|exact IHo].
  - rewrite hook_results_other by assumption.
    split.
    + destruct op; try discriminate; reflexivity.
    + intros m Hm. eapply observers_other; eauto.
Qed.

Lemma hook_results_first w k ops :
  hook w = InitializerHook k -> initNavigation (self w) = false ->
  hook_results (run_trace opts w ops)
  = first_only (length (preactivations ops))
  /\ forall m, m ∈ observers (resultOfPreactivationDone
                               (self (run opts w ops))) ->
               m ∈ observers (resultOfPreactivationDone (self w))
               \/ preactivations ops !! 0 = Some m.
Proof.
  revert w k. induction ops as [|op ops IH]; intros w k Hh Hi.
  { split; [reflexivity|]. intros m Hm. left. exact Hm. }
  rewrite run_trace_cons, run_cons, hook_results_app.
  destruct (is_preactivation op) eqn:Hop.
  - destruct op; try discriminate.
    destruct (preactivation_first_trace w n k Hh Hi) as (-> & Hi' & Ho).
    destruct (hook_results_later (step opts w (PreActivation n)) ops Hi')
      as [-> Hl].
    split; [reflexivity|]. intros m Hm.
    destruct (Ho m (Hl m Hm)) as [?| ->]; [left; assumption|right; reflexivity].
  - rewrite hook_results_other by assumption.
    destruct (hook_step opts w op k Hh) as [k' Hh'].
    destruct (IH (step opts w op) k' Hh') as [IHr IHo].
    { rewrite initNavigation_other; assumption. }
    rewrite IHr. split.
    + destruct op; try discriminate; reflexivity.
    + intros m Hm. destruct (IHo m Hm) as [Hm'|Hm'].
      * left. eapply observers_other; eauto.
      * right. destruct op; try discriminate; exact Hm'.
Qed.

End Handler.

(** ** Waiting for the gate, and the blocking protocol *)

Section Blocking.

Variable opts : ExtraOptions.

Lemma waiting_run w ops k :
  phases w !! k = Some Waiting ->
  Forall (fun op => settles_gate k op = false) ops ->
  phases (run opts w ops) !! k = Some Waiting.
Proof.
  intros Hw Hops. revert w Hw.
  induction Hops as [|op ops Hop _ IH]; intros w Hw; [exact Hw|].
  rewrite run_cons. apply IH, waiting_step; assumption.
Qed.

Lemma blocked_step k s ntf w op :
  blocked k s ntf w -> quiet k op = true -> blocked k s ntf (step opts w op).
Proof.
  unfold blocked. destruct w as [[i d [st obs]] h ps ntf0]. cbn.
  intros (-> & Hk & -> & <- & <-) Hop.
  destruct op; cbn in Hop; try discriminate; step_cases;
    repeat split; lookup_solve.
  apply lookup_app_l_Some; assumption.
Qed.

Lemma blocked_run k s ntf w ops :
  blocked k s ntf w -> Forall (fun op => quiet k op = true) ops ->
  blocked k s ntf (run opts w ops).
Proof.
  intros Hw Hops. revert w Hw.
  induction Hops as [|op ops Hop _ IH]; intros w Hw; [exact Hw|].
  rewrite run_cons. apply IH, blocked_step; assumption.
Qed.

(** The first pre-activation of a blocked instance: the promise is resolved
    and the navigation subscribes to the open subject. *)
Lemma blocked_preactivation k obs ntf w n :
  blocked k {| isStopped := false; observers := obs |} ntf w ->
  step_trace opts w (PreActivation n)
  = [Resolve k; HookReturned n ReturnsSubject]
  /\ promise_of (step opts w (PreActivation n)) k = Some Fulfilled
  /\ initNavigation (self (step opts w (PreActivation n))) = true
  /\ resultOfPreactivationDone (self (step opts w (PreActivation n)))
     = {| isStopped := false; observers := obs ++ [n] |}
  /\ notified (step opts w (PreActivation n)) = ntf.
Proof.
  unfold blocked. destruct w as [[i d [st obs0]] h ps ntf0]. cbn.
  intros (-> & Hk & -> & [= -> ->] & <-).
  step_cases; try congruence. rewrite app_nil_r.
  repeat split; reflexivity.
Qed.

Lemma pausing_step s ntf w op :
  pausing s ntf w -> is_first_root_bootstrap op = false ->
  pausing s ntf (step opts w op).
Proof.
  unfold pausing. destruct w as [[i d [st obs]] h ps ntf0]. cbn.
  intros (-> & <- & <-) Hop.
  destruct op; cbn in Hop; step_cases; repeat split; congruence.
Qed.

Lemma pausing_run s ntf w ops :
  pausing s ntf w ->
  Forall (fun op => is_first_root_bootstrap op = false) ops ->
  pausing s ntf (run opts w ops).
Proof.
  intros Hw Hops. revert w Hw.
  induction Hops as [|op ops Hop _ IH]; intros w Hw; [exact Hw|].
  rewrite run_cons. apply IH, pausing_step; assumption.
Qed.

End Blocking.

(** ** Steps as triples *)

Lemma perform_eq opts op w :
  perform opts op w = (tt, step opts w op, step_trace opts w op).
Proof.
  unfold step, step_trace, world_after, trace_of.
  destruct (perform opts op w) as [[[] w'] es]. reflexivity.
Qed.

(** After [ngOnDestroy], settling the gate makes no call. *)
Lemma gate_trace_destroyed opts w k :
  destroyed (self w) = true ->
  step_trace opts w (GateFulfilled k) = []
  /\ step_trace opts w (GateRejected k) = [].
Proof.
  destruct w as [[i d [st obs]] h ps ntf]. cbn. intros ->.
  split; step_cases; reflexivity.
Qed.

(** A pending promise stays pending until the handler is called. *)
Lemma pending_step opts w op k :
  phases w !! k = Some (Ran Pending) -> is_preactivation op = false ->
  phases (step opts w op) !! k = Some (Ran Pending).
Proof.
  destruct w as [[i d [st obs]] h ps ntf]; destruct op; step_cases; intros.
  all: lookup_solve.
  apply lookup_app_l_Some; assumption.
Qed.

Lemma pending_run opts w ops k :
  phases w !! k = Some (Ran Pending) ->
  Forall (fun op => is_preactivation op = false) ops ->
  phases (run opts w ops) !! k = Some (Ran Pending).
Proof.
  intros Hw Hops. revert w Hw.
  induction Hops as [|op ops Hop _ IH]; intros w Hw; [exact Hw|].
  rewrite run_cons. apply IH, pending_step; assumption.
Qed.

(** Once the subject is stopped, [bootstrapListener] tells nobody anything
    and leaves the subject as it is. *)
Lemma bootstrapListener_fired opts w app ref :
  fired w = true ->
  notified (step opts w (CallBootstrapListener app ref)) = notified w
  /\ resultOfPreactivationDone
       (self (step opts w (CallBootstrapListener app ref)))
     = resultOfPreactivationDone (self w).
Proof.
  intros Hf. destruct (is_first_root app ref) eqn:Hr.
  - apply bootstrapListener_first_root_stopped; assumption.
  - destruct (bootstrapListener_other_root opts w app ref Hr) as [-> _].
    split; reflexivity.
Qed.

(** A navigation that gets the stopped subject from the handler is told
    [Complete] on subscribing. *)
Lemma preactivation_late_subscriber opts w k n :
  fired w = true -> hook w = InitializerHook k ->
  initNavigation (self w) = false ->
  notified (step opts w (PreActivation n)) = notified w ++ [(n, Complete)].
Proof.
  destruct w as [[i d [st obs]] h ps ntf]. cbn. intros -> -> ->.
  step_cases; reflexivity.
Qed.

(** * The protocol, claim by claim *)

(** ** Unrecognised values of [initialNavigation] *)

(** C1, as stated, fails: the legacy value ['enabled'] is none of the three
    policies and is not [undefined], yet [appInitializer]'s promise is
    fulfilled, not rejected. *)
Lemma legacy_enabled_is_not_rejected :
  let opts := with_policy (JsString "enabled") in
  let w := run opts World_new [CallAppInitializer; GateFulfilled 0] in
  ~ InitialNavigation (initialNavigation opts)
  /\ initialNavigation opts <> JsUndefined
  /\ promise_of w 0 = Some Fulfilled
  /\ promise_of w 0 <> Some Rejected.
Proof.
  cbn zeta. repeat split; try (vm_compute; congruence).
  unfold InitialNavigation. cbn. intros [H|[H|H]]; discriminate H.
Qed.

(** C1, amended: [undefined] makes every operation, in every state, behave
    exactly as ['enabledNonBlocking'] does; and under a value outside the
    three policies the callback of [appInitializer] also behaves exactly as
    under ['enabledNonBlocking']: its promise is fulfilled, nothing is
    rejected. *)
Theorem undefined_is_default_and_unrecognized_resolves (op : Op) (w : World) :
  perform (with_policy JsUndefined) op w
  = perform (with_policy (JsString "enabledNonBlocking")) op w
  /\ forall (opts : ExtraOptions) (w' : World) (k : PhaseId),
       ~ InitialNavigation (initialNavigation opts) ->
       phases w' !! k = Some Waiting ->
       perform opts (GateFulfilled k) w'
       = perform (with_policy (JsString "enabledNonBlocking"))
           (GateFulfilled k) w'
       /\ promise_of (step opts w' (GateFulfilled k)) k = Some Fulfilled.
Proof.
  split.
  - destruct op; reflexivity.
  - intros opts w' k Hv Hk.
    destruct (not_policy_branches opts Hv) as (Hd & Hb & _).
    rewrite !perform_eq.
    destruct (destroyed (self w')) eqn:Hdes.
    + destruct (callback_destroyed opts w' k Hk Hdes) as [-> ->].
      destruct (callback_destroyed
                  (with_policy (JsString "enabledNonBlocking")) w' k Hk Hdes)
        as [-> ->].
      split; [reflexivity|]. apply promise_of_insert, Hk.
    + destruct (callback_otherwise opts w' k Hk Hdes Hd Hb) as [-> ->].
      destruct (callback_otherwise
                  (with_policy (JsString "enabledNonBlocking")) w' k Hk Hdes
                  eq_refl eq_refl) as [-> ->].
      split; [reflexivity|]. apply promise_of_insert, Hk.
Qed.

Lemma undefined_is_default_and_unrecognized_resolves_witness :
  let opts := with_policy (JsString "enabled") in
  let w := step opts World_new CallAppInitializer in
  let fresh_first_root := CallBootstrapListener one_root 7 in
  (~ InitialNavigation (initialNavigation opts)
   /\ phases w !! 0 = Some Waiting)
  /\ perform (with_policy JsUndefined) fresh_first_root World_new
     = perform (with_policy (JsString "enabledNonBlocking"))
         fresh_first_root World_new
  /\ promise_of (step opts w (GateFulfilled 0)) 0 = Some Fulfilled.
Proof.
  cbn zeta.
  assert (H1 : ~ InitialNavigation
                 (initialNavigation (with_policy (JsString "enabled")))).
  { unfold InitialNavigation. cbn. intros [H|[H|H]]; discriminate H. }
  assert (H2 : phases (step (with_policy (JsString "enabled")) World_new
                         CallAppInitializer) !! 0 = Some Waiting)
    by reflexivity.
  split; [split; assumption|].
  destruct (undefined_is_default_and_unrecognized_resolves
              (CallBootstrapListener one_root 7) World_new) as [Hu Hr].
  split; [exact Hu|].
  exact (proj2 (Hr _ _ 0 H1 H2)).
Defined.

(** C9: under a value that is neither one of the three policies nor
    [undefined], the callback of [appInitializer] resolves its promise at
    once, and no run of the instance ever calls [router.initialNavigation]
    or [router.setUpLocationChangeListener]. *)
Theorem unrecognized_value_never_navigates
    (opts : ExtraOptions) (w : World) (k : PhaseId)
    (w0 : World) (ops : list Op) :
  ~ InitialNavigation (initialNavigation opts) ->
  initialNavigation opts <> JsUndefined ->
  phases w !! k = Some Waiting ->
  destroyed (self w) = false ->
  step_trace opts w (GateFulfilled k)
  = [InjectorGet Token.Router; InjectorGet Token.ROUTER_CONFIGURATION;
     Resolve k]
  /\ promise_of (step opts w (GateFulfilled k)) k = Some Fulfilled
  /\ count is_initialNavigation (run_trace opts w0 ops) = 0
  /\ count is_setUpLocationChangeListener (run_trace opts w0 ops) = 0.
Proof.
  intros Hv Hu Hk Hdes.
  destruct (unrecognized_branches opts Hv Hu) as (Hd & Hb & Hn & Hund).
  destruct (callback_otherwise opts w k Hk Hdes Hd Hb) as [-> ->].
  split; [reflexivity|]. split; [apply promise_of_insert, Hk|]. split.
  - apply count_run_zero. intros w' op.
    apply initialNavigation_step_never; assumption.
  - apply count_run_zero. intros w' op.
    apply setUpLocationChangeListener_step_never; assumption.
Qed.

Lemma unrecognized_value_never_navigates_witness :
  let opts := with_policy (JsString "enabled") in
  let w := step opts World_new CallAppInitializer in
  let ops := [CallAppInitializer; GateFulfilled 0; PreActivation 1;
              CallBootstrapListener one_root 7] in
  (~ InitialNavigation (initialNavigation opts)
   /\ initialNavigation opts <> JsUndefined
   /\ phases w !! 0 = Some Waiting
   /\ destroyed (self w) = false)
  /\ count is_initialNavigation (run_trace opts World_new ops) = 0
  /\ count is_setUpLocationChangeListener (run_trace opts World_new ops) = 0.
Proof.
  cbn zeta.
  assert (H1 : ~ InitialNavigation
                 (initialNavigation (with_policy (JsString "enabled")))).
  { unfold InitialNavigation. cbn. intros [H|[H|H]]; discriminate H. }
  assert (H2 : initialNavigation (with_policy (JsString "enabled"))
               <> JsUndefined) by discriminate.
  assert (H3 : phases (step (with_policy (JsString "enabled")) World_new
                         CallAppInitializer) !! 0 = Some Waiting)
    by reflexivity.
  assert (H4 : destroyed (self (step (with_policy (JsString "enabled"))
                                  World_new CallAppInitializer)) = false)
    by reflexivity.
  split; [repeat split; assumption|].
  exact (proj2 (proj2 (unrecognized_value_never_navigates
                         _ _ 0 World_new _ H1 H2 H3 H4))).
Defined.

(** ** Teardown *)

(** C2, as stated, fails: after [ngOnDestroy] has set [destroyed],
    [bootstrapListener] still does its five lookups, and [appInitializer]
    still looks [LOCATION_INITIALIZED] up; neither reads the flag. *)
Lemma bootstrapListener_looks_up_after_destroy :
  let opts := with_policy JsUndefined in
  let w := step opts World_new CallNgOnDestroy in
  destroyed (self w) = true
  /\ List.filter is_lookup
       (step_trace opts w (CallBootstrapListener one_root 7))
     = bootstrap_lookups
  /\ List.filter is_lookup
       (step_trace opts w (CallBootstrapListener two_roots 8))
     = bootstrap_lookups
  /\ step_trace opts w CallAppInitializer
     = [InjectorGet Token.LOCATION_INITIALIZED].
Proof. cbn zeta. repeat split; reflexivity. Qed.

(** C2, amended: once [destroyed] is set, whatever happens next, the callback
    of [appInitializer] that runs when [LOCATION_INITIALIZED] settles makes
    no call at all, so no lookup in the container. *)
Theorem no_lookup_in_callback_after_destroy
    (opts : ExtraOptions) (w : World) (ops : list Op) (k : PhaseId) :
  destroyed (self w) = true ->
  step_trace opts (run opts w ops) (GateFulfilled k) = []
  /\ step_trace opts (run opts w ops) (GateRejected k) = [].
Proof.
  intros Hd. apply gate_trace_destroyed, destroyed_run, Hd.
Qed.

Lemma no_lookup_in_callback_after_destroy_witness :
  let opts := with_policy (JsString "enabledBlocking") in
  let w := run opts World_new [CallAppInitializer; CallNgOnDestroy] in
  let ops := [CallBootstrapListener one_root 7; PreActivation 1] in
  destroyed (self w) = true
  /\ step_trace opts (run opts w ops) (GateFulfilled 0) = []
  /\ step_trace opts (run opts w ops) (GateRejected 0) = [].
Proof.
  cbn zeta.
  assert (H : destroyed
                (self (run (with_policy (JsString "enabledBlocking"))
                         World_new [CallAppInitializer; CallNgOnDestroy]))
              = true) by reflexivity.
  split; [exact H|].
  exact (no_lookup_in_callback_after_destroy _ _ _ 0 H).
Defined.

(** C8: [ngOnDestroy] is called while the promise of call [k] still waits
    for [LOCATION_INITIALIZED]. Whatever the policy and whatever else happens
    before the gate settles, when it is fulfilled the callback makes no call
    (none to the router in particular), leaves the hook slot alone and the
    promise is fulfilled. A rejected gate makes no call either. *)
Theorem destroyed_before_gate_resolves_quietly
    (opts : ExtraOptions) (w : World) (k : PhaseId) (ops : list Op) :
  phases w !! k = Some Waiting ->
  Forall (fun op => settles_gate k op = false) ops ->
  let w' := run opts w (CallNgOnDestroy :: ops) in
  promise_of w' k = Some Pending
  /\ step_trace opts w' (GateFulfilled k) = []
  /\ promise_of (step opts w' (GateFulfilled k)) k = Some Fulfilled
  /\ hook (step opts w' (GateFulfilled k)) = hook w'
  /\ step_trace opts w' (GateRejected k) = [].
Proof.
  intros Hk Hops w'.
  assert (Hk' : phases w' !! k = Some Waiting).
  { apply waiting_run; [exact Hk|]. constructor; [reflexivity|exact Hops]. }
  assert (Hd : destroyed (self w') = true).
  { subst w'. rewrite run_cons. apply destroyed_run.
    destruct w as [[i d [st obs]] h ps ntf]. reflexivity. }
  destruct (callback_destroyed opts w' k Hk' Hd) as [Ht Hw].
  split; [unfold promise_of; rewrite Hk'; reflexivity|].
  split; [exact Ht|]. rewrite Hw.
  split; [apply promise_of_insert, Hk'|]. split; [reflexivity|].
  apply gate_trace_destroyed, Hd.
Qed.

Lemma destroyed_before_gate_resolves_quietly_witness :
  let opts := with_policy (JsString "enabledBlocking") in
  let w := step opts World_new CallAppInitializer in
  let ops := [PreActivation 1; CallBootstrapListener one_root 7] in
  let w' := run opts w (CallNgOnDestroy :: ops) in
  (phases w !! 0 = Some Waiting
   /\ Forall (fun op => settles_gate 0 op = false) ops)
  /\ step_trace opts w' (GateFulfilled 0) = []
  /\ promise_of (step opts w' (GateFulfilled 0)) 0 = Some Fulfilled.
Proof.
  cbn zeta.
  assert (H1 : phases (step (with_policy (JsString "enabledBlocking"))
                         World_new CallAppInitializer) !! 0 = Some Waiting)
    by reflexivity.
  assert (H2 : Forall (fun op => settles_gate 0 op = false)
                 [PreActivation 1; CallBootstrapListener one_root 7])
    by (repeat constructor).
  split; [split; assumption|].
  pose proof (destroyed_before_gate_resolves_quietly
                (with_policy (JsString "enabledBlocking")) _ 0 _ H1 H2) as H.
  cbn zeta in H. destruct H as (_ & Ht & Hp & _). split; assumption.
Defined.

(** ** The three policies *)

(** C5: under ['disabled'], on an instance that is not destroyed, the
    callback of [appInitializer] calls [router.setUpLocationChangeListener]
    and only then resolves its promise, within the one step; and no run of
    the instance ever calls [router.initialNavigation]. *)
Theorem disabled_installs_listener_and_never_navigates
    (opts : ExtraOptions) (w : World) (k : PhaseId)
    (w0 : World) (ops : list Op) :
  initialNavigation opts = JsString "disabled" ->
  phases w !! k = Some Waiting ->
  destroyed (self w) = false ->
  step_trace opts w (GateFulfilled k)
  = [InjectorGet Token.Router; InjectorGet Token.ROUTER_CONFIGURATION;
     SetUpLocationChangeListener; Resolve k]
  /\ promise_of w k = Some Pending
  /\ promise_of (step opts w (GateFulfilled k)) k = Some Fulfilled
  /\ count is_initialNavigation (run_trace opts w0 ops) = 0.
Proof.
  intros Hv Hk Hdes.
  destruct (disabled_branches opts Hv) as (Hd & Hn & Hu).
  destruct (callback_disabled opts w k Hk Hdes Hd) as [-> ->].
  split; [reflexivity|].
  split; [unfold promise_of; rewrite Hk; reflexivity|].
  split; [apply promise_of_insert, Hk|].
  apply count_run_zero. intros w' op.
  apply initialNavigation_step_never; try assumption.
  destruct (initialNavigation opts) as [| | |s]; try discriminate.
  injection Hv as ->. reflexivity.
Qed.

Lemma disabled_installs_listener_and_never_navigates_witness :
  let opts := with_policy (JsString "disabled") in
  let w := step opts World_new CallAppInitializer in
  let ops := [CallAppInitializer; GateFulfilled 0; PreActivation 1;
              CallBootstrapListener one_root 7;
              CallBootstrapListener two_roots 8] in
  (initialNavigation opts = JsString "disabled"
   /\ phases w !! 0 = Some Waiting
   /\ destroyed (self w) = false)
  /\ step_trace opts w (GateFulfilled 0)
     = [InjectorGet Token.Router; InjectorGet Token.ROUTER_CONFIGURATION;
        SetUpLocationChangeListener; Resolve 0]
  /\ count is_initialNavigation (run_trace opts World_new ops) = 0.
Proof.
  cbn zeta.
  assert (H1 : initialNavigation (with_policy (JsString "disabled"))
               = JsString "disabled") by reflexivity.
  assert (H2 : phases (step (with_policy (JsString "disabled")) World_new
                         CallAppInitializer) !! 0 = Some Waiting)
    by reflexivity.
  assert (H3 : destroyed (self (step (with_policy (JsString "disabled"))
                                  World_new CallAppInitializer)) = false)
    by reflexivity.
  split; [repeat split; assumption|].
  destruct (disabled_installs_listener_and_never_navigates
              _ _ 0 World_new
              [CallAppInitializer; GateFulfilled 0; PreActivation 1;
               CallBootstrapListener one_root 7;
               CallBootstrapListener two_roots 8] H1 H2 H3)
    as (Ht & _ & _ & Hc).
  split; assumption.
Defined.

(** C4: under ['enabledNonBlocking'] or [undefined], the callback of
    [appInitializer] fulfils its promise without calling
    [router.initialNavigation]; in a run where the host calls
    [bootstrapListener] on the first root once, nothing before that call
    starts the navigation, the call starts it, and over the whole run it is
    started exactly once. *)
Theorem nonblocking_navigates_once_after_first_root
    (opts : ExtraOptions) (w : World) (k : PhaseId)
    (w0 : World) (pre post : list Op)
    (app : ApplicationRef) (ref : ComponentRef) :
  initialNavigation opts = JsString "enabledNonBlocking"
  \/ initialNavigation opts = JsUndefined ->
  phases w !! k = Some Waiting ->
  is_first_root app ref = true ->
  Forall (fun op => is_first_root_bootstrap op = false) pre ->
  Forall (fun op => is_first_root_bootstrap op = false) post ->
  promise_of (step opts w (GateFulfilled k)) k = Some Fulfilled
  /\ count is_initialNavigation (step_trace opts w (GateFulfilled k)) = 0
  /\ count is_initialNavigation (run_trace opts w0 pre) = 0
  /\ count is_initialNavigation
       (step_trace opts (run opts w0 pre) (CallBootstrapListener app ref)) = 1
  /\ count is_initialNavigation
       (run_trace opts w0 (pre ++ CallBootstrapListener app ref :: post)) = 1.
Proof.
  intros Hv Hk Hr Hpre Hpost.
  assert (Hd : strict_eq_string (initialNavigation opts) "disabled" = false)
    by (destruct Hv as [-> | ->]; reflexivity).
  assert (Hb : strict_eq_string (initialNavigation opts) "enabledBlocking"
               = false)
    by (destruct Hv as [-> | ->]; reflexivity).
  assert (Hn : strict_eq_string (initialNavigation opts) "enabledNonBlocking"
               || strict_eq_undefined (initialNavigation opts) = true)
    by (destruct Hv as [-> | ->]; reflexivity).
  pose proof (initialNavigation_step_nonblocking opts) as Hstep.
  pose proof (count_run_filter opts is_initialNavigation
                is_first_root_bootstrap
                (fun w' op => Hstep w' op Hd Hb Hn)) as Hrun.
  split.
  { destruct (destroyed (self w)) eqn:Hdes.
    - destruct (callback_destroyed opts w k Hk Hdes) as [_ ->].
      apply promise_of_insert, Hk.
    - destruct (callback_otherwise opts w k Hk Hdes Hd Hb) as [_ ->].
      apply promise_of_insert, Hk. }
  split; [rewrite Hstep by assumption; reflexivity|].
  split; [rewrite Hrun, filter_none by assumption; reflexivity|].
  split; [rewrite Hstep by assumption; cbn; rewrite Hr; reflexivity|].
  rewrite Hrun, List.filter_app. cbn [List.filter is_first_root_bootstrap].
  rewrite Hr, !filter_none by assumption. reflexivity.
Qed.

Lemma nonblocking_navigates_once_after_first_root_witness :
  let opts := with_policy JsUndefined in
  let w := step opts World_new CallAppInitializer in
  let pre := [CallAppInitializer; GateFulfilled 0] in
  let post := [CallBootstrapListener two_roots 8; PreActivation 1] in
  (phases w !! 0 = Some Waiting
   /\ is_first_root one_root 7 = true
   /\ Forall (fun op => is_first_root_bootstrap op = false) pre
   /\ Forall (fun op => is_first_root_bootstrap op = false) post)
  /\ count is_initialNavigation (run_trace opts World_new pre) = 0
  /\ count is_initialNavigation
       (run_trace opts World_new
          (pre ++ CallBootstrapListener one_root 7 :: post)) = 1.
Proof.
  cbn zeta.
  assert (H1 : phases (step (with_policy JsUndefined) World_new
                         CallAppInitializer) !! 0 = Some Waiting)
    by reflexivity.
  assert (H2 : is_first_root one_root 7 = true) by reflexivity.
  assert (H3 : Forall (fun op => is_first_root_bootstrap op = false)
                 [CallAppInitializer; GateFulfilled 0])
    by (repeat constructor).
  assert (H4 : Forall (fun op => is_first_root_bootstrap op = false)
                 [CallBootstrapListener two_roots 8; PreActivation 1])
    by (repeat constructor).
  split; [repeat split; assumption|].
  destruct (nonblocking_navigates_once_after_first_root
              (with_policy JsUndefined) _ 0 World_new _ _ one_root 7
              (or_intror eq_refl) H1 H2 H3 H4)
    as (_ & _ & Hpre & _ & Hall).
  split; assumption.
Defined.

(** C3: under ['enabledBlocking'], on an instance that is not destroyed and
    has paused nothing yet, the promise of [appInitializer] is pending after
    its callback and stays pending as long as no navigation reaches
    pre-activation. The first call of the handler resolves the promise and
    returns the subject; the navigation is then an observer of the subject,
    and stays one, told nothing, until [bootstrapListener] runs on the first
    root; that call tells it [Next] (then [Complete]) and releases it. *)
Theorem blocking_holds_promise_then_navigation
    (opts : ExtraOptions) (w : World) (k : PhaseId)
    (ops0 ops1 ops2 : list Op) (n : NavigationId)
    (app : ApplicationRef) (ref : ComponentRef) :
  initialNavigation opts = JsString "enabledBlocking" ->
  phases w !! k = Some Waiting ->
  destroyed (self w) = false ->
  initNavigation (self w) = false ->
  fired w = false ->
  Forall (fun op => is_preactivation op = false) ops0 ->
  Forall (fun op => quiet k op = true) ops1 ->
  Forall (fun op => is_first_root_bootstrap op = false) ops2 ->
  is_first_root app ref = true ->
  let w1 := run opts w (GateFulfilled k :: ops1) in
  let w2 := step opts w1 (PreActivation n) in
  let w3 := run opts w2 ops2 in
  let w4 := step opts w3 (CallBootstrapListener app ref) in
  let obs := observers (resultOfPreactivationDone (self w)) ++ [n] in
  promise_of (run opts w (GateFulfilled k :: ops0)) k = Some Pending
  /\ promise_of w1 k = Some Pending
  /\ step_trace opts w1 (PreActivation n)
     = [Resolve k; HookReturned n ReturnsSubject]
  /\ promise_of w2 k = Some Fulfilled
  /\ paused w2 n
  /\ (paused w3 n /\ fired w3 = false /\ notified w3 = notified w)
  /\ notified w4
     = (notified w ++ map (fun m => (m, Next)) obs)
       ++ map (fun m => (m, Complete)) obs
  /\ ~ paused w4 n.
Proof.
  intros Hv Hk Hdes Hi Hf Hops0 Hops1 Hops2 Hr. cbv zeta.
  destruct (enabledBlocking_branches opts Hv) as (Hd & Hb & _).
  destruct (callback_enabledBlocking opts w k Hk Hdes Hd Hb) as [_ Hw].
  assert (Hlook : <[k := Ran Pending]> (phases w) !! k = Some (Ran Pending))
    by (apply list_lookup_insert_eq; eapply lookup_lt_Some; exact Hk).
  remember (observers (resultOfPreactivationDone (self w))) as obs0 eqn:Eobs.
  assert (Hb0 : blocked k {| isStopped := false; observers := obs0 |}
                  (notified w) (step opts w (GateFulfilled k))).
  { rewrite Hw. unfold blocked. cbn. repeat split; try assumption.
    destruct w as [[i d [st o]] h ps ntf]. cbn in *. congruence. }
  rewrite !run_cons.
  pose proof (blocked_run opts k _ _ _ ops1 Hb0 Hops1) as Hb1.
  remember (run opts (step opts w (GateFulfilled k)) ops1) as w1 eqn:Ew1.
  destruct (blocked_preactivation opts k _ _ w1 n Hb1)
    as (Ht & Hp & Hi2 & Hs2 & Hn2).
  remember (step opts w1 (PreActivation n)) as w2 eqn:Ew2.
  assert (Hp3 : pausing {| isStopped := false; observers := obs0 ++ [n] |}
                  (notified w) (run opts w2 ops2)).
  { apply pausing_run; [|assumption].
    unfold pausing. repeat split; assumption. }
  remember (run opts w2 ops2) as w3 eqn:Ew3.
  destruct Hp3 as (Hi3 & Hs3 & Hn3).
  assert (Hf3 : fired w3 = false) by (unfold fired; rewrite Hs3; reflexivity).
  split.
  { unfold promise_of. rewrite (pending_run opts _ ops0 k).
    - reflexivity.
    - rewrite Hw. exact Hlook.
    - assumption. }
  split.
  { unfold promise_of. destruct Hb1 as (_ & -> & _). reflexivity. }
  split; [exact Ht|]. split; [exact Hp|].
  split.
  { unfold paused. rewrite Hs2. cbn.
    apply elem_of_app. right. apply list_elem_of_singleton. reflexivity. }
  split.
  { unfold paused. rewrite Hs3. cbn. repeat split; try assumption.
    apply elem_of_app. right. apply list_elem_of_singleton. reflexivity. }
  rewrite (bootstrapListener_first_root_open opts w3 app ref Hr Hf3).
  unfold paused. cbn. rewrite Hs3, Hn3. cbn. split; [reflexivity|].
  apply not_elem_of_nil.
Qed.

Lemma blocking_holds_promise_then_navigation_witness :
  let opts := with_policy (JsString "enabledBlocking") in
  let w := step opts World_new CallAppInitializer in
  let ops0 := [CallBootstrapListener one_root 7; CallNgOnDestroy] in
  let ops1 := [CallBootstrapListener two_roots 8; CallAppInitializer] in
  let ops2 := [PreActivation 2; CallBootstrapListener two_roots 8] in
  let w1 := run opts w (GateFulfilled 0 :: ops1) in
  let w2 := step opts w1 (PreActivation 1) in
  let w3 := run opts w2 ops2 in
  let w4 := step opts w3 (CallBootstrapListener one_root 7) in
  (initialNavigation opts = JsString "enabledBlocking"
   /\ phases w !! 0 = Some Waiting
   /\ destroyed (self w) = false
   /\ initNavigation (self w) = false
   /\ fired w = false
   /\ Forall (fun op => is_preactivation op = false) ops0
   /\ Forall (fun op => quiet 0 op = true) ops1
   /\ Forall (fun op => is_first_root_bootstrap op = false) ops2
   /\ is_first_root one_root 7 = true)
  /\ promise_of w1 0 = Some Pending
  /\ promise_of w2 0 = Some Fulfilled
  /\ notified w3 = []
  /\ notified w4 = [(1, Next); (1, Complete)].
Proof.
  cbn zeta.
  assert (H1 : initialNavigation (with_policy (JsString "enabledBlocking"))
               = JsString "enabledBlocking") by reflexivity.
  assert (H2 : phases (step (with_policy (JsString "enabledBlocking"))
                         World_new CallAppInitializer) !! 0 = Some Waiting)
    by reflexivity.
  assert (H3 : destroyed
                 (self (step (with_policy (JsString "enabledBlocking"))
                          World_new CallAppInitializer)) = false)
    by reflexivity.
  assert (H4 : initNavigation
                 (self (step (with_policy (JsString "enabledBlocking"))
                          World_new CallAppInitializer)) = false)
    by reflexivity.
  assert (H5 : fired (step (with_policy (JsString "enabledBlocking"))
                        World_new CallAppInitializer) = false)
    by reflexivity.
  assert (H6 : Forall (fun op => is_preactivation op = false)
                 [CallBootstrapListener one_root 7; CallNgOnDestroy])
    by (repeat constructor).
  assert (H7 : Forall (fun op => quiet 0 op = true)
                 [CallBootstrapListener two_roots 8; CallAppInitializer])
    by (repeat constructor).
  assert (H8 : Forall (fun op => is_first_root_bootstrap op = false)
                 [PreActivation 2; CallBootstrapListener two_roots 8])
    by (repeat constructor).
  assert (H9 : is_first_root one_root 7 = true) by reflexivity.
  split; [repeat split; assumption|].
  pose proof (blocking_holds_promise_then_navigation
                (with_policy (JsString "enabledBlocking")) _ 0 _ _ _ 1
                one_root 7 H1 H2 H3 H4 H5 H6 H7 H8 H9) as H.
  cbv zeta in H.
  destruct H as (_ & Hp1 & _ & Hp2 & _ & (_ & _ & Hn3) & Hn4 & _).
  split; [exact Hp1|]. split; [exact Hp2|].
  split; [exact Hn3|]. exact Hn4.
Defined.

(** C6: under ['enabledBlocking'], once the callback of [appInitializer] has
    put the handler in the hook slot, the handler returns the subject to the
    first navigation that reaches pre-activation and [of(null)] to every
    later one, however many there are and whatever else happens; the only
    navigation that can ever wait on the subject is that first one. *)
Theorem handler_pauses_only_first_navigation
    (opts : ExtraOptions) (w : World) (k : PhaseId) (ops : list Op) :
  initialNavigation opts = JsString "enabledBlocking" ->
  phases w !! k = Some Waiting ->
  destroyed (self w) = false ->
  initNavigation (self w) = false ->
  observers (resultOfPreactivationDone (self w)) = [] ->
  hook_results (run_trace opts w (GateFulfilled k :: ops))
  = first_only (length (preactivations ops))
  /\ forall m, paused (run opts w (GateFulfilled k :: ops)) m ->
               preactivations ops !! 0 = Some m.
Proof.
  intros Hv Hk Hdes Hi Hobs.
  destruct (enabledBlocking_branches opts Hv) as (Hd & Hb & _).
  destruct (callback_enabledBlocking opts w k Hk Hdes Hd Hb) as [Ht Hw].
  rewrite run_trace_cons, run_cons, hook_results_app, Ht.
  destruct (hook_results_first opts (step opts w (GateFulfilled k)) k ops)
    as [Hr Ho].
  { rewrite Hw. reflexivity. }
  { rewrite Hw. exact Hi. }
  split; [exact Hr|].
  intros m Hm. destruct (Ho m Hm) as [Hm'|Hm']; [|exact Hm'].
  rewrite Hw in Hm'. cbn in Hm'. rewrite Hobs in Hm'.
  apply elem_of_nil in Hm'. destruct Hm'.
Qed.

Lemma handler_pauses_only_first_navigation_witness :
  let opts := with_policy (JsString "enabledBlocking") in
  let w := step opts World_new CallAppInitializer in
  let ops := [PreActivation 1; PreActivation 2; CallNgOnDestroy;
              PreActivation 3] in
  (initialNavigation opts = JsString "enabledBlocking"
   /\ phases w !! 0 = Some Waiting
   /\ destroyed (self w) = false
   /\ initNavigation (self w) = false
   /\ observers (resultOfPreactivationDone (self w)) = [])
  /\ hook_results (run_trace opts w (GateFulfilled 0 :: ops))
     = [ReturnsSubject; ReturnsOfNull; ReturnsOfNull].
Proof.
  cbn zeta.
  assert (H1 : initialNavigation (with_policy (JsString "enabledBlocking"))
               = JsString "enabledBlocking") by reflexivity.
  assert (H2 : phases (step (with_policy (JsString "enabledBlocking"))
                         World_new CallAppInitializer) !! 0 = Some Waiting)
    by reflexivity.
  assert (H3 : destroyed
                 (self (step (with_policy (JsString "enabledBlocking"))
                          World_new CallAppInitializer)) = false)
    by reflexivity.
  assert (H4 : initNavigation
                 (self (step (with_policy (JsString "enabledBlocking"))
                          World_new CallAppInitializer)) = false)
    by reflexivity.
  assert (H5 : observers
                 (resultOfPreactivationDone
                    (self (step (with_policy (JsString "enabledBlocking"))
                             World_new CallAppInitializer))) = [])
    by reflexivity.
  split; [repeat split; assumption|].
  exact (proj1 (handler_pauses_only_first_navigation
                  (with_policy (JsString "enabledBlocking")) _ 0
                  [PreActivation 1; PreActivation 2; CallNgOnDestroy;
                   PreActivation 3] H1 H2 H3 H4 H5)).
Defined.

(** ** The first-root guard and the completion signal *)

(** C7: a call of [bootstrapListener] on a component that is not the first
    root does its lookups and returns: the state is unchanged, the router is
    not called, the subject is not touched. Along any run the subject goes
    from open to stopped at most once, and exactly once when the run holds a
    call on the first root; once stopped it stays stopped, and a further
    [bootstrapListener] tells nobody anything. A subscriber that comes after
    the stop is told [Complete] at once. *)
Theorem other_root_is_inert_and_signal_fires_once
    (opts : ExtraOptions) (w : World)
    (app : ApplicationRef) (ref : ComponentRef)
    (w0 : World) (ops : list Op) (s : Subject) (n : NavigationId) :
  is_first_root app ref = false ->
  isStopped s = true ->
  (step opts w (CallBootstrapListener app ref) = w
   /\ step_trace opts w (CallBootstrapListener app ref) = bootstrap_lookups)
  /\ fire_count opts w0 ops <= 1
  /\ (fired w0 = false ->
      fire_count opts w0 ops
      = if existsb is_first_root_bootstrap ops then 1 else 0)
  /\ (fired w0 = true ->
      fired (run opts w0 ops) = true
      /\ forall app' ref',
           notified (step opts w0 (CallBootstrapListener app' ref'))
           = notified w0
           /\ resultOfPreactivationDone
                (self (step opts w0 (CallBootstrapListener app' ref')))
              = resultOfPreactivationDone (self w0))
  /\ Subject_subscribe n s = (s, [(n, Complete)])
  /\ (forall k, fired w0 = true -> hook w0 = InitializerHook k ->
                initNavigation (self w0) = false ->
                notified (step opts w0 (PreActivation n))
                = notified w0 ++ [(n, Complete)]).
Proof.
  intros Hr Hs.
  split; [apply bootstrapListener_other_root, Hr|].
  split; [apply fire_count_le|].
  split; [apply fire_count_open|].
  split.
  { intros Hf. split; [apply fired_run, Hf|].
    intros app' ref'. apply bootstrapListener_fired, Hf. }
  split.
  { unfold Subject_subscribe. rewrite Hs. reflexivity. }
  intros k Hf Hh Hi. eapply preactivation_late_subscriber; eassumption.
Qed.

Lemma other_root_is_inert_and_signal_fires_once_witness :
  let opts := with_policy (JsString "enabledBlocking") in
  let w := run opts World_new [CallAppInitializer; GateFulfilled 0;
                               PreActivation 1] in
  let ops := [CallBootstrapListener two_roots 8;
              CallBootstrapListener two_roots 7;
              CallBootstrapListener two_roots 7] in
  let s := {| isStopped := true; observers := [] |} in
  (is_first_root two_roots 8 = false /\ isStopped s = true)
  /\ step opts w (CallBootstrapListener two_roots 8) = w
  /\ fire_count opts w ops = 1
  /\ Subject_subscribe 5 s = (s, [(5, Complete)]).
Proof.
  cbn zeta.
  assert (H1 : is_first_root two_roots 8 = false) by reflexivity.
  assert (H2 : isStopped {| isStopped := true; observers := [] |} = true)
    by reflexivity.
  split; [split; assumption|].
  destruct (other_root_is_inert_and_signal_fires_once
              (with_policy (JsString "enabledBlocking"))
              (run (with_policy (JsString "enabledBlocking")) World_new
                 [CallAppInitializer; GateFulfilled 0; PreActivation 1])
              two_roots 8
              (run (with_policy (JsString "enabledBlocking")) World_new
                 [CallAppInitializer; GateFulfilled 0; PreActivation 1])
              [CallBootstrapListener two_roots 8;
               CallBootstrapListener two_roots 7;
               CallBootstrapListener two_roots 7]
              {| isStopped := true; observers := [] |} 5 H1 H2)
    as ((Hw & _) & _ & Hc & _ & Hsub & _).
  split; [exact Hw|]. split; [exact (Hc eq_refl)|exact Hsub].
Defined.

(** C10: the guard of [bootstrapListener] compares its argument with
    [components[0]] and keeps no record of having run. A second call on the
    same first root makes every call of the first one again, in the same
    order: the lookups, [router.initialNavigation] under
    ['enabledNonBlocking'] or [undefined], [setUpPreloading], the scroller's
    [init], [resetRootComponentType], the subject's [next] and [complete].
    Only a call on another component does nothing beyond its lookups. *)
Theorem first_root_guard_keeps_no_record
    (opts : ExtraOptions) (w : World)
    (app app' : ApplicationRef) (ref ref' : ComponentRef) :
  is_first_root app ref = true ->
  is_first_root app' ref' = false ->
  let op := CallBootstrapListener app ref in
  step_trace opts w op = bootstrap_lookups ++ bootstrap_effects opts app
  /\ step_trace opts (step opts w op) op
     = bootstrap_lookups ++ bootstrap_effects opts app
  /\ (initialNavigation opts = JsString "enabledNonBlocking"
      \/ initialNavigation opts = JsUndefined ->
      count is_initialNavigation (run_trace opts w [op; op]) = 2)
  /\ count (fun e => bool_decide (e = SetUpPreloading))
       (run_trace opts w [op; op]) = 2
  /\ count (fun e => bool_decide (e = ScrollerInit))
       (run_trace opts w [op; op]) = 2
  /\ (step opts w (CallBootstrapListener app' ref') = w
      /\ step_trace opts w (CallBootstrapListener app' ref')
         = bootstrap_lookups).
Proof.
  intros Hr Hr' op.
  assert (Ht : forall w', step_trace opts w' op
                          = bootstrap_lookups ++ bootstrap_effects opts app)
    by (intros w'; apply bootstrapListener_first_root_trace, Hr).
  assert (Hrun : run_trace opts w [op; op]
                 = (bootstrap_lookups ++ bootstrap_effects opts app)
                   ++ bootstrap_lookups ++ bootstrap_effects opts app).
  { rewrite run_trace_cons, run_trace_one, !Ht. reflexivity. }
  split; [apply Ht|]. split; [apply Ht|]. rewrite Hrun.
  unfold bootstrap_lookups, bootstrap_effects.
  split.
  { intros [-> | ->]; reflexivity. }
  split; [|split].
  - destruct (_ || _); reflexivity.
  - destruct (_ || _); reflexivity.
  - apply bootstrapListener_other_root, Hr'.
Qed.

Lemma first_root_guard_keeps_no_record_witness :
  let opts := with_policy JsUndefined in
  let op := CallBootstrapListener two_roots 7 in
  (is_first_root two_roots 7 = true /\ is_first_root two_roots 8 = false)
  /\ step_trace opts (step opts World_new op) op
     = step_trace opts World_new op
  /\ count is_initialNavigation (run_trace opts World_new [op; op]) = 2.
Proof.
  cbn zeta.
  assert (H1 : is_first_root two_roots 7 = true) by reflexivity.
  assert (H2 : is_first_root two_roots 8 = false) by reflexivity.
  split; [split; assumption|].
  pose proof (first_root_guard_keeps_no_record
                (with_policy JsUndefined) World_new two_roots two_roots 7 8
                H1 H2) as H.
  cbv zeta in H. destruct H as (Ht1 & Ht2 & Hc & _).
  split; [rewrite Ht1, Ht2; reflexivity|].
  apply Hc. right. reflexivity.
Defined.

(** * Beyond the claims *)

(** ** More of the initializer *)

Section Reachable.

Variable opts : ExtraOptions.

Lemma pause_shape_step w op :
  pause_shape w -> pause_shape (step opts w op).
Proof.
  unfold pause_shape. destruct w as [[i d [st obs]] h ps ntf]. cbn.
  intros [(-> & -> & ->)
         |(n & -> & [(-> & -> & ->)|[(-> & -> & ->)|(-> & -> & ->)]])].
  all: destruct op; step_cases.
  all: first
    [ left; repeat split; reflexivity
    | right; eexists; split; [reflexivity|]; left; repeat split; reflexivity
    | right; eexists; split; [reflexivity|]; right; left;
      repeat split; reflexivity
    | right; eexists; split; [reflexivity|]; right; right;
      repeat split; reflexivity ].
Qed.

Lemma pause_shape_run w ops :
  pause_shape w -> pause_shape (run opts w ops).
Proof.
  revert w. induction ops as [|op ops IH]; intros w Hw; [exact Hw|].
  rewrite run_cons. apply IH, pause_shape_step, Hw.
Qed.

Lemma never_hooked_step w op :
  strict_eq_string (initialNavigation opts) "enabledBlocking" = false ->
  never_hooked w ->
  never_hooked (step opts w op)
  /\ hook_results (step_trace opts w op)
     = replicate (length (preactivations [op])) ReturnsOfNull.
Proof.
  unfold never_hooked. destruct w as [[i d [st obs]] h ps ntf]. cbn.
  intros Hb (-> & -> & -> & ->).
  destruct op; step_cases; try congruence; repeat split; reflexivity.
Qed.

Lemma never_hooked_run w ops :
  strict_eq_string (initialNavigation opts) "enabledBlocking" = false ->
  never_hooked w ->
  never_hooked (run opts w ops)
  /\ hook_results (run_trace opts w ops)
     = replicate (length (preactivations ops)) ReturnsOfNull.
Proof.
  intros Hb. revert w. induction ops as [|op ops IH]; intros w Hw.
  { split; [exact Hw|reflexivity]. }
  destruct (never_hooked_step w op Hb Hw) as [Hw1 Ht1].
  destruct (IH _ Hw1) as [Hw2 Ht2].
  rewrite run_cons, run_trace_cons, hook_results_app, Ht1, Ht2.
  split; [exact Hw2|]. destruct op; reflexivity.
Qed.

(** Under ['enabledBlocking'], with [initNavigation] set, nothing resolves
    a pending promise. *)
Lemma stuck_step w op k :
  strict_eq_string (initialNavigation opts) "disabled" = false ->
  strict_eq_string (initialNavigation opts) "enabledBlocking" = true ->
  initNavigation (self w) = true ->
  phases w !! k = Some (Ran Pending) ->
  initNavigation (self (step opts w op)) = true
  /\ phases (step opts w op) !! k = Some (Ran Pending).
Proof.
  intros Hd Hb Hi Hk. split; [apply initNavigation_step, Hi|].
  destruct w as [[i d [st obs]] h ps ntf]. cbn in *. subst i.
  destruct op; step_cases; try congruence; lookup_solve.
  apply lookup_app_l_Some; assumption.
Qed.

Lemma stuck_run w ops k :
  strict_eq_string (initialNavigation opts) "disabled" = false ->
  strict_eq_string (initialNavigation opts) "enabledBlocking" = true ->
  initNavigation (self w) = true ->
  phases w !! k = Some (Ran Pending) ->
  phases (run opts w ops) !! k = Some (Ran Pending).
Proof.
  intros Hd Hb. revert w.
  induction ops as [|op ops IH]; intros w Hi Hk; [exact Hk|].
  rewrite run_cons.
  destruct (stuck_step w op k Hd Hb Hi Hk) as [Hi' Hk'].
  apply IH; assumption.
Qed.

Lemma none_waiting_step w op :
  strict_eq_string (initialNavigation opts) "enabledNonBlocking" = false ->
  strict_eq_undefined (initialNavigation opts) = false ->
  op <> CallAppInitializer ->
  none_waiting w ->
  none_waiting (step opts w op)
  /\ count is_initialNavigation (step_trace opts w op) = 0.
Proof.
  unfold none_waiting. intros Hn Hu Hop Hw.
  destruct w as [[i d [st obs]] h ps ntf]. cbn in *.
  destruct op; try congruence; step_cases;
    try congruence; try (split; [assumption|reflexivity]).
  all: try (exfalso; eapply Hw; eassumption).
  all: split; [|reflexivity]; intros j Hj.
  all: destruct (decide (k = j)) as [->|Hne];
    [ rewrite list_lookup_insert_eq in Hj
        by (eapply lookup_lt_Some; eassumption); congruence
    | rewrite list_lookup_insert_ne in Hj by assumption;
      eapply Hw; eassumption ].
Qed.

Lemma none_waiting_run w ops :
  strict_eq_string (initialNavigation opts) "enabledNonBlocking" = false ->
  strict_eq_undefined (initialNavigation opts) = false ->
  Forall (fun op => op <> CallAppInitializer) ops ->
  none_waiting w ->
  count is_initialNavigation (run_trace opts w ops) = 0.
Proof.
  intros Hn Hu Hops. revert w.
  induction Hops as [|op ops Hop _ IH]; intros w Hw; [reflexivity|].
  destruct (none_waiting_step w op Hn Hu Hop Hw) as [Hw' Hc].
  rewrite run_trace_cons, count_app, Hc, (IH _ Hw'). reflexivity.
Qed.

End Reachable.

Lemma not_enabledBlocking v :
  v <> JsString "enabledBlocking" ->
  strict_eq_string v "enabledBlocking" = false.
Proof.
  intros Hv. destruct v as [| |b|s]; try reflexivity.
  apply bool_decide_eq_false. intros ->. apply Hv. reflexivity.
Qed.

(** X1: whatever the options and whatever happens to a fresh instance, at
    most one navigation is ever involved with the subject: it has no
    observer, or the one paused navigation; and the subject has told nobody
    anything, or that one navigation [Next] then [Complete], or [Complete]
    alone when it subscribed after the signal. *)
Theorem fresh_instance_pauses_at_most_one
    (opts : ExtraOptions) (ops : list Op) :
  let w := run opts World_new ops in
  pause_shape w
  /\ length (observers (resultOfPreactivationDone (self w))) <= 1
  /\ length (List.filter (fun x => bool_decide (x.2 = Next)) (notified w))
     <= 1.
Proof.
  intros w.
  assert (H : pause_shape w).
  { apply pause_shape_run. left. repeat split; reflexivity. }
  split; [exact H|].
  destruct H as [(_ & -> & ->)
                |(n & _ & [(_ & -> & ->)|[(_ & -> & ->)|(_ & -> & ->)]])];
    split; vm_compute; lia.
Qed.

(** X2: unless [initialNavigation] is ['enabledBlocking'], the instance
    never assigns the hook: on a fresh instance, in any run, the slot keeps
    the router's own hook, every navigation gets [of(null)], none is ever
    paused and the subject tells nobody anything. *)
Theorem only_enabledBlocking_pauses
    (opts : ExtraOptions) (ops : list Op) (n : NavigationId) :
  initialNavigation opts <> JsString "enabledBlocking" ->
  let w := run opts World_new ops in
  hook w = DefaultHook
  /\ hook_results (run_trace opts World_new ops)
     = replicate (length (preactivations ops)) ReturnsOfNull
  /\ ~ paused w n
  /\ notified w = [].
Proof.
  intros Hv w.
  destruct (never_hooked_run opts World_new ops (not_enabledBlocking _ Hv))
    as [(Hh & _ & Ho & Hn) Hr].
  { repeat split; reflexivity. }
  split; [exact Hh|]. split; [exact Hr|]. split; [|exact Hn].
  unfold paused. fold w in Ho. rewrite Ho. apply not_elem_of_nil.
Qed.

Lemma only_enabledBlocking_pauses_witness :
  let opts := with_policy (JsString "enabled") in
  let ops := [CallAppInitializer; GateFulfilled 0; PreActivation 1;
              CallBootstrapListener one_root 7; PreActivation 2] in
  initialNavigation opts <> JsString "enabledBlocking"
  /\ hook_results (run_trace opts World_new ops)
     = [ReturnsOfNull; ReturnsOfNull]
  /\ notified (run opts World_new ops) = [].
Proof.
  cbn zeta.
  assert (H : initialNavigation (with_policy (JsString "enabled"))
              <> JsString "enabledBlocking") by discriminate.
  split; [exact H|].
  pose proof (only_enabledBlocking_pauses
                (with_policy (JsString "enabled"))
                [CallAppInitializer; GateFulfilled 0; PreActivation 1;
                 CallBootstrapListener one_root 7; PreActivation 2] 1 H)
    as Hw.
  cbv zeta in Hw. destruct Hw as (_ & Hr & _ & Hn).
  split; [exact Hr|exact Hn].
Defined.

(** X3: the handler resolves a promise only on the branch that sets
    [initNavigation]. Under ['enabledBlocking'], a callback of
    [appInitializer] that runs on an instance whose [initNavigation] is
    already set leaves its promise pending, and nothing that happens later
    resolves it. *)
Theorem blocking_promise_after_first_pause_never_resolves
    (opts : ExtraOptions) (w : World) (k : PhaseId) (ops : list Op) :
  initialNavigation opts = JsString "enabledBlocking" ->
  phases w !! k = Some Waiting ->
  destroyed (self w) = false ->
  initNavigation (self w) = true ->
  promise_of (run opts w (GateFulfilled k :: ops)) k = Some Pending.
Proof.
  intros Hv Hk Hdes Hi.
  destruct (enabledBlocking_branches opts Hv) as (Hd & Hb & _).
  destruct (callback_enabledBlocking opts w k Hk Hdes Hd Hb) as [_ Hw].
  unfold promise_of. rewrite run_cons, (stuck_run opts _ ops k Hd Hb).
  - reflexivity.
  - rewrite Hw. exact Hi.
  - rewrite Hw. cbn.
    apply list_lookup_insert_eq. eapply lookup_lt_Some; exact Hk.
Qed.

Lemma blocking_promise_after_first_pause_never_resolves_witness :
  let opts := with_policy (JsString "enabledBlocking") in
  let w := run opts World_new [CallAppInitializer; GateFulfilled 0;
                               PreActivation 1; CallAppInitializer] in
  let ops := [PreActivation 2; CallBootstrapListener one_root 7;
              PreActivation 3] in
  (initialNavigation opts = JsString "enabledBlocking"
   /\ phases w !! 1 = Some Waiting
   /\ destroyed (self w) = false
   /\ initNavigation (self w) = true)
  /\ promise_of (run opts w (GateFulfilled 1 :: ops)) 1 = Some Pending.
Proof.
  cbn zeta.
  assert (H1 : initialNavigation (with_policy (JsString "enabledBlocking"))
               = JsString "enabledBlocking") by reflexivity.
  assert (H2 : phases (run (with_policy (JsString "enabledBlocking"))
                         World_new
                         [CallAppInitializer; GateFulfilled 0;
                          PreActivation 1; CallAppInitializer]) !! 1
               = Some Waiting) by reflexivity.
  assert (H3 : destroyed
                 (self (run (with_policy (JsString "enabledBlocking"))
                          World_new
                          [CallAppInitializer; GateFulfilled 0;
                           PreActivation 1; CallAppInitializer])) = false)
    by reflexivity.
  assert (H4 : initNavigation
                 (self (run (with_policy (JsString "enabledBlocking"))
                          World_new
                          [CallAppInitializer; GateFulfilled 0;
                           PreActivation 1; CallAppInitializer])) = true)
    by reflexivity.
  split; [repeat split; assumption|].
  exact (blocking_promise_after_first_pause_never_resolves
           _ _ 1 [PreActivation 2; CallBootstrapListener one_root 7;
                  PreActivation 3] H1 H2 H3 H4).
Defined.

(** X4: under ['enabledBlocking'], when the host calls [appInitializer]
    once, [router.initialNavigation] is called exactly once over the whole
    run, by the callback, whatever follows ([bootstrapListener] never calls
    it); and not at all when [ngOnDestroy] came before the gate. *)
Theorem blocking_navigates_exactly_once
    (opts : ExtraOptions) (ops : list Op) :
  initialNavigation opts = JsString "enabledBlocking" ->
  Forall (fun op => op <> CallAppInitializer) ops ->
  count is_initialNavigation
    (run_trace opts World_new (CallAppInitializer :: GateFulfilled 0 :: ops))
  = 1
  /\ count is_initialNavigation
       (run_trace opts World_new
          (CallAppInitializer :: CallNgOnDestroy :: GateFulfilled 0 :: ops))
     = 0.
Proof.
  intros Hv Hops.
  destruct (enabledBlocking_branches opts Hv) as (Hd & Hb & Hn & Hu).
  split.
  - rewrite !run_trace_cons, !count_app.
    assert (Hw : phases (step opts World_new CallAppInitializer) !! 0
                 = Some Waiting) by reflexivity.
    destruct (callback_enabledBlocking opts _ 0 Hw eq_refl Hd Hb)
      as [-> ->].
    rewrite (none_waiting_run opts _ ops Hn Hu Hops).
    + reflexivity.
    + intros [|j]; cbn; discriminate.
  - rewrite !run_trace_cons, !count_app.
    assert (Hw : phases (step opts (step opts World_new CallAppInitializer)
                           CallNgOnDestroy) !! 0 = Some Waiting)
      by reflexivity.
    destruct (callback_destroyed opts _ 0 Hw eq_refl) as [-> ->].
    rewrite (none_waiting_run opts _ ops Hn Hu Hops).
    + reflexivity.
    + intros [|j]; cbn; discriminate.
Qed.

Lemma blocking_navigates_exactly_once_witness :
  let opts := with_policy (JsString "enabledBlocking") in
  let ops := [PreActivation 1; CallBootstrapListener one_root 7;
              GateFulfilled 0; CallBootstrapListener one_root 7] in
  (initialNavigation opts = JsString "enabledBlocking"
   /\ Forall (fun op => op <> CallAppInitializer) ops)
  /\ count is_initialNavigation
       (run_trace opts World_new
          (CallAppInitializer :: GateFulfilled 0 :: ops)) = 1.
Proof.
  cbn zeta.
  assert (H1 : initialNavigation (with_policy (JsString "enabledBlocking"))
               = JsString "enabledBlocking") by reflexivity.
  assert (H2 : Forall (fun op => op <> CallAppInitializer)
                 [PreActivation 1; CallBootstrapListener one_root 7;
                  GateFulfilled 0; CallBootstrapListener one_root 7])
    by (repeat constructor; discriminate).
  split; [split; assumption|].
  exact (proj1 (blocking_navigates_exactly_once _ _ H1 H2)).
Defined.

(** ** Options and the router *)

Lemma Router_ext (r r' : Engine.Router) :
  Engine.urlHandlingStrategy r = Engine.urlHandlingStrategy r' ->
  Engine.routeReuseStrategy r = Engine.routeReuseStrategy r' ->
  Engine.titleStrategy r = Engine.titleStrategy r' ->
  Engine.errorHandler r = Engine.errorHandler r' ->
  Engine.malformedUriErrorHandler r = Engine.malformedUriErrorHandler r' ->
  Engine.onSameUrlNavigation r = Engine.onSameUrlNavigation r' ->
  Engine.paramsInheritanceStrategy r = Engine.paramsInheritanceStrategy r' ->
  Engine.relativeLinkResolution r = Engine.relativeLinkResolution r' ->
  Engine.urlUpdateStrategy r = Engine.urlUpdateStrategy r' ->
  Engine.canceledNavigationResolution r
  = Engine.canceledNavigationResolution r' ->
  r = r'.
Proof. destruct r, r'. cbn. intros. congruence. Qed.

(** Field by field: an option that is truthy replaces the field, any other
    leaves it; the three strategies are not among the fields. *)
Lemma assignExtraOptionsToRouter_fields o r :
  let r' := assignExtraOptionsToRouter o r in
  Engine.urlHandlingStrategy r' = Engine.urlHandlingStrategy r
  /\ Engine.routeReuseStrategy r' = Engine.routeReuseStrategy r
  /\ Engine.titleStrategy r' = Engine.titleStrategy r
  /\ Engine.errorHandler r'
     = pick (Config.errorHandler o) (Engine.errorHandler r)
  /\ Engine.malformedUriErrorHandler r'
     = pick (Config.malformedUriErrorHandler o)
         (Engine.malformedUriErrorHandler r)
  /\ Engine.onSameUrlNavigation r'
     = pick (Config.onSameUrlNavigation o) (Engine.onSameUrlNavigation r)
  /\ Engine.paramsInheritanceStrategy r'
     = pick (Config.paramsInheritanceStrategy o)
         (Engine.paramsInheritanceStrategy r)
  /\ Engine.relativeLinkResolution r'
     = pick (Config.relativeLinkResolution o)
         (Engine.relativeLinkResolution r)
  /\ Engine.urlUpdateStrategy r'
     = pick (Config.urlUpdateStrategy o) (Engine.urlUpdateStrategy r)
  /\ Engine.canceledNavigationResolution r'
     = pick (Config.canceledNavigationResolution o)
         (Engine.canceledNavigationResolution r).
Proof.
  unfold assignExtraOptionsToRouter, assign_if, pick. cbv zeta.
  destruct (truthy (Config.errorHandler o)),
    (truthy (Config.malformedUriErrorHandler o)),
    (truthy (Config.onSameUrlNavigation o)),
    (truthy (Config.paramsInheritanceStrategy o)),
    (truthy (Config.relativeLinkResolution o)),
    (truthy (Config.urlUpdateStrategy o)),
    (truthy (Config.canceledNavigationResolution o));
    repeat split; reflexivity.
Qed.

Lemma pick_absorbs c c' v :
  implb (truthy c') (truthy c) = true -> pick c (pick c' v) = pick c v.
Proof. unfold pick. destruct (truthy c), (truthy c'); try discriminate; reflexivity. Qed.

Lemma pick_falsy c v :
  implb (truthy c) (truthy (Prim JsUndefined)) = true -> pick c v = v.
Proof. unfold pick. destruct (truthy c); try discriminate; reflexivity. Qed.

Lemma covers_fields o o' :
  covers o o' = true ->
  implb (truthy (Config.errorHandler o')) (truthy (Config.errorHandler o))
  = true
  /\ implb (truthy (Config.malformedUriErrorHandler o'))
       (truthy (Config.malformedUriErrorHandler o)) = true
  /\ implb (truthy (Config.onSameUrlNavigation o'))
       (truthy (Config.onSameUrlNavigation o)) = true
  /\ implb (truthy (Config.paramsInheritanceStrategy o'))
       (truthy (Config.paramsInheritanceStrategy o)) = true
  /\ implb (truthy (Config.relativeLinkResolution o'))
       (truthy (Config.relativeLinkResolution o)) = true
  /\ implb (truthy (Config.urlUpdateStrategy o'))
       (truthy (Config.urlUpdateStrategy o)) = true
  /\ implb (truthy (Config.canceledNavigationResolution o'))
       (truthy (Config.canceledNavigationResolution o)) = true.
Proof.
  unfold covers. rewrite !andb_true_iff. tauto.
Qed.

Lemma covers_refl o : covers o o = true.
Proof.
  unfold covers.
  destruct (truthy (Config.errorHandler o)),
    (truthy (Config.malformedUriErrorHandler o)),
    (truthy (Config.onSameUrlNavigation o)),
    (truthy (Config.paramsInheritanceStrategy o)),
    (truthy (Config.relativeLinkResolution o)),
    (truthy (Config.urlUpdateStrategy o)),
    (truthy (Config.canceledNavigationResolution o)); reflexivity.
Qed.

Lemma absorbs o o' router :
  covers o o' = true ->
  assignExtraOptionsToRouter o (assignExtraOptionsToRouter o' router)
  = assignExtraOptionsToRouter o router.
Proof.
  intros H. apply covers_fields in H.
  destruct H as (H1 & H2 & H3 & H4 & H5 & H6 & H7).
  pose proof (assignExtraOptionsToRouter_fields o
                (assignExtraOptionsToRouter o' router)) as Ha.
  pose proof (assignExtraOptionsToRouter_fields o' router) as Hb.
  pose proof (assignExtraOptionsToRouter_fields o router) as Hc.
  cbv zeta in Ha, Hb, Hc.
  destruct Ha as (A1 & A2 & A3 & A4 & A5 & A6 & A7 & A8 & A9 & A10).
  destruct Hb as (B1 & B2 & B3 & B4 & B5 & B6 & B7 & B8 & B9 & B10).
  destruct Hc as (C1 & C2 & C3 & C4 & C5 & C6 & C7 & C8 & C9 & C10).
  apply Router_ext.
  - rewrite A1, B1, C1. reflexivity.
  - rewrite A2, B2, C2. reflexivity.
  - rewrite A3, B3, C3. reflexivity.
  - rewrite A4, B4, C4. apply pick_absorbs, H1.
  - rewrite A5, B5, C5. apply pick_absorbs, H2.
  - rewrite A6, B6, C6. apply pick_absorbs, H3.
  - rewrite A7, B7, C7. apply pick_absorbs, H4.
  - rewrite A8, B8, C8. apply pick_absorbs, H5.
  - rewrite A9, B9, C9. apply pick_absorbs, H6.
  - rewrite A10, B10, C10. apply pick_absorbs, H7.
Qed.

Lemma falsy_is_identity o router :
  covers Config.empty o = true ->
  assignExtraOptionsToRouter o router = router.
Proof.
  intros H. apply covers_fields in H.
  destruct H as (H1 & H2 & H3 & H4 & H5 & H6 & H7).
  pose proof (assignExtraOptionsToRouter_fields o router) as Hc.
  cbv zeta in Hc.
  destruct Hc as (C1 & C2 & C3 & C4 & C5 & C6 & C7 & C8 & C9 & C10).
  apply Router_ext; try assumption.
  - rewrite C4. apply pick_falsy, H1.
  - rewrite C5. apply pick_falsy, H2.
  - rewrite C6. apply pick_falsy, H3.
  - rewrite C7. apply pick_falsy, H4.
  - rewrite C8. apply pick_falsy, H5.
  - rewrite C9. apply pick_falsy, H6.
  - rewrite C10. apply pick_falsy, H7.
Qed.

(** X5: [assignExtraOptionsToRouter] copies an option only when it is
    truthy. After options [o'], options [o] that are truthy wherever [o'] is
    leave nothing of [o'] behind; in particular applying the same options
    twice is applying them once. *)
Theorem assignExtraOptionsToRouter_absorbs
    (o o' : Config.ExtraOptions) (router : Engine.Router) :
  covers o o' = true ->
  assignExtraOptionsToRouter o (assignExtraOptionsToRouter o' router)
  = assignExtraOptionsToRouter o router
  /\ assignExtraOptionsToRouter o (assignExtraOptionsToRouter o router)
     = assignExtraOptionsToRouter o router.
Proof.
  intros H. split; [apply absorbs, H|apply absorbs, covers_refl].
Qed.

Lemma assignExtraOptionsToRouter_absorbs_witness :
  covers sample_options falsy_options = true
  /\ assignExtraOptionsToRouter sample_options
       (assignExtraOptionsToRouter falsy_options sample_router)
     = assignExtraOptionsToRouter sample_options sample_router.
Proof.
  assert (H : covers sample_options falsy_options = true) by reflexivity.
  split; [exact H|].
  exact (proj1 (assignExtraOptionsToRouter_absorbs _ _ sample_router H)).
Defined.

(** X6: options of which none of the seven copied ones is truthy ([{}],
    but also [null], [false] or [''] given explicitly) leave the router as
    it is; and no options ever touch [urlHandlingStrategy],
    [routeReuseStrategy] or [titleStrategy]. *)
Theorem assignExtraOptionsToRouter_falsy_is_identity
    (o o' : Config.ExtraOptions) (router : Engine.Router) :
  covers Config.empty o = true ->
  assignExtraOptionsToRouter o router = router
  /\ Engine.urlHandlingStrategy (assignExtraOptionsToRouter o' router)
     = Engine.urlHandlingStrategy router
  /\ Engine.routeReuseStrategy (assignExtraOptionsToRouter o' router)
     = Engine.routeReuseStrategy router
  /\ Engine.titleStrategy (assignExtraOptionsToRouter o' router)
     = Engine.titleStrategy router.
Proof.
  intros H. split; [apply falsy_is_identity, H|].
  pose proof (assignExtraOptionsToRouter_fields o' router) as Hc.
  cbv zeta in Hc. destruct Hc as (C1 & C2 & C3 & _).
  repeat split; assumption.
Qed.

Lemma assignExtraOptionsToRouter_falsy_is_identity_witness :
  covers Config.empty falsy_options = true
  /\ assignExtraOptionsToRouter falsy_options sample_router = sample_router.
Proof.
  assert (H : covers Config.empty falsy_options = true) by reflexivity.
  split; [exact H|].
  exact (proj1 (assignExtraOptionsToRouter_falsy_is_identity
                  _ sample_options sample_router H)).
Defined.

Lemma assign_empty router :
  assignExtraOptionsToRouter Config.empty router = router.
Proof. destruct router. reflexivity. Qed.

Lemma assign_tracing_off router :
  assignExtraOptionsToRouter Config.tracing_off router = router.
Proof. destruct router. reflexivity. Qed.

(** X7: [setupRouter] with the options left out, with [{}] and with the
    [{enableTracing: false}] of [ROUTER_PROVIDERS] does the same: none of
    the seven option fields of the constructed router is changed and nothing
    is subscribed to its events, in any mode; the router has the strategies
    the call gave ([titleStrategy ?? defaultTitleStrategy], the two others
    when truthy). With [null] for options it throws on the first property
    read. *)
Theorem setupRouter_default_options
    {Route : Type} (flatten : list (list Route) -> list Route)
    (Router_new : list Route -> Engine.Router)
    (ngDevMode : option Value) (config : list (list Route))
    (defaultTitleStrategy titleStrategy urlHandlingStrategy
       routeReuseStrategy : Value) :
  let call opts :=
    setupRouter flatten Router_new ngDevMode config opts
      defaultTitleStrategy titleStrategy urlHandlingStrategy
      routeReuseStrategy in
  let router :=
    Engine.set_titleStrategy
      (nullish_coalesce titleStrategy defaultTitleStrategy)
      (assign_if routeReuseStrategy Engine.set_routeReuseStrategy
         (assign_if urlHandlingStrategy Engine.set_urlHandlingStrategy
            (Router_new (flatten config)))) in
  call ArgUndefined = inr (router, false)
  /\ call (ArgObject Config.empty) = inr (router, false)
  /\ call (ArgObject Config.tracing_off) = inr (router, false)
  /\ call ArgNull = inl TypeError
  /\ Engine.errorHandler router
     = Engine.errorHandler (Router_new (flatten config))
  /\ Engine.malformedUriErrorHandler router
     = Engine.malformedUriErrorHandler (Router_new (flatten config))
  /\ Engine.onSameUrlNavigation router
     = Engine.onSameUrlNavigation (Router_new (flatten config))
  /\ Engine.paramsInheritanceStrategy router
     = Engine.paramsInheritanceStrategy (Router_new (flatten config))
  /\ Engine.relativeLinkResolution router
     = Engine.relativeLinkResolution (Router_new (flatten config))
  /\ Engine.urlUpdateStrategy router
     = Engine.urlUpdateStrategy (Router_new (flatten config))
  /\ Engine.canceledNavigationResolution router
     = Engine.canceledNavigationResolution (Router_new (flatten config)).
Proof.
  cbv zeta. unfold setupRouter.
  rewrite assign_empty, assign_tracing_off.
  cbn [Config.enableTracing Config.empty Config.tracing_off truthy].
  rewrite !andb_false_r.
  repeat split; try reflexivity.
  all: unfold assign_if; destruct (Router_new (flatten config));
    destruct (truthy routeReuseStrategy), (truthy urlHandlingStrategy);
    reflexivity.
Qed.

Lemma same_copied_assign o o' router :
  same_copied o o' = true ->
  assignExtraOptionsToRouter o router = assignExtraOptionsToRouter o' router.
Proof.
  unfold same_copied. rewrite !andb_true_iff, !bool_decide_eq_true.
  intros ((((((H1 & H2) & H3) & H4) & H5) & H6) & H7).
  pose proof (assignExtraOptionsToRouter_fields o router) as Ha.
  pose proof (assignExtraOptionsToRouter_fields o' router) as Hb.
  cbv zeta in Ha, Hb.
  destruct Ha as (A1 & A2 & A3 & A4 & A5 & A6 & A7 & A8 & A9 & A10).
  destruct Hb as (B1 & B2 & B3 & B4 & B5 & B6 & B7 & B8 & B9 & B10).
  apply Router_ext; congruence.
Qed.

(** X8: the router [setupRouter] returns depends on the options only
    through the seven that [assignExtraOptionsToRouter] copies, and not on
    the build mode. The console logger is subscribed exactly when
    [opts.enableTracing] is truthy and the build is a development one:
    [ngDevMode] undeclared, holding [undefined], or truthy. A build whose
    [ngDevMode] holds a falsy value other than [undefined] never
    subscribes. *)
Theorem setupRouter_tracing
    {Route : Type} (flatten : list (list Route) -> list Route)
    (Router_new : list Route -> Engine.Router)
    (ngDevMode ngDevMode' : option Value) (config : list (list Route))
    (opts opts' : Config.ExtraOptions) (v v' : Value)
    (defaultTitleStrategy titleStrategy urlHandlingStrategy
       routeReuseStrategy : Value) :
  same_copied opts opts' = true ->
  truthy v = false ->
  v <> Prim JsUndefined ->
  truthy v' = true ->
  let call mode o :=
    setupRouter flatten Router_new mode config (ArgObject o)
      defaultTitleStrategy titleStrategy urlHandlingStrategy
      routeReuseStrategy in
  exists router,
    call ngDevMode opts
    = inr (router, dev_mode ngDevMode && truthy (Config.enableTracing opts))
    /\ call ngDevMode' opts'
       = inr (router,
              dev_mode ngDevMode' && truthy (Config.enableTracing opts'))
    /\ call (Some v) opts = inr (router, false)
    /\ call None opts = inr (router, truthy (Config.enableTracing opts))
    /\ call (Some (Prim JsUndefined)) opts
       = inr (router, truthy (Config.enableTracing opts))
    /\ call (Some v') opts
       = inr (router, truthy (Config.enableTracing opts)).
Proof.
  intros Hs Hv Hu Hv'. cbv zeta. unfold setupRouter. eexists.
  split; [reflexivity|]. split; [|split; [|split; [|split]]].
  - rewrite (same_copied_assign opts opts' _ Hs). reflexivity.
  - destruct v as [[| |b|s]|id]; cbn in Hv |- *;
      try congruence; rewrite ?Hv; reflexivity.
  - reflexivity.
  - reflexivity.
  - destruct v' as [[| |b|s]|id]; cbn in Hv' |- *;
      try congruence; rewrite ?Hv'; reflexivity.
Qed.

Lemma setupRouter_tracing_witness :
  let opts' :=
    {| Config.enableTracing := Prim JsUndefined;
       Config.useHash := Prim JsUndefined;
       Config.initialNavigation := JsUndefined;
       Config.errorHandler := Obj 1;
       Config.preloadingStrategy := Prim JsUndefined;
       Config.onSameUrlNavigation := Prim (JsString "reload");
       Config.scrollPositionRestoration := Prim JsUndefined;
       Config.anchorScrolling := Prim JsUndefined;
       Config.scrollOffset := Prim JsUndefined;
       Config.paramsInheritanceStrategy := Prim JsUndefined;
       Config.malformedUriErrorHandler := Prim JsUndefined;
       Config.urlUpdateStrategy := Prim (JsString "eager");
       Config.relativeLinkResolution := Prim JsUndefined;
       Config.canceledNavigationResolution := Prim JsUndefined |} in
  let call mode o :=
    setupRouter (@concat nat) (fun _ => sample_router) mode [[1]; [2; 3]]
      (ArgObject o) (Obj 20) (Prim JsUndefined) (Prim JsNull) (Obj 21) in
  (same_copied sample_options opts' = true
   /\ truthy (Prim (JsBoolean false)) = false
   /\ Prim (JsBoolean false) <> Prim JsUndefined
   /\ truthy (Prim (JsBoolean true)) = true)
  /\ exists router,
       call None sample_options = inr (router, true)
       /\ call (Some (Prim (JsBoolean false))) sample_options
          = inr (router, false)
       /\ call (Some (Prim JsUndefined)) sample_options = inr (router, true)
       /\ call None opts' = inr (router, false).
Proof.
  cbv zeta.
  assert (Hne : Prim (JsBoolean false) <> Prim JsUndefined) by discriminate.
  split; [repeat split; try reflexivity; exact Hne|].
  destruct (setupRouter_tracing (@concat nat) (fun _ => sample_router)
              None None [[1]; [2; 3]] sample_options
              {| Config.enableTracing := Prim JsUndefined;
                 Config.useHash := Prim JsUndefined;
                 Config.initialNavigation := JsUndefined;
                 Config.errorHandler := Obj 1;
                 Config.preloadingStrategy := Prim JsUndefined;
                 Config.onSameUrlNavigation := Prim (JsString "reload");
                 Config.scrollPositionRestoration := Prim JsUndefined;
                 Config.anchorScrolling := Prim JsUndefined;
                 Config.scrollOffset := Prim JsUndefined;
                 Config.paramsInheritanceStrategy := Prim JsUndefined;
                 Config.malformedUriErrorHandler := Prim JsUndefined;
                 Config.urlUpdateStrategy := Prim (JsString "eager");
                 Config.relativeLinkResolution := Prim JsUndefined;
                 Config.canceledNavigationResolution := Prim JsUndefined |}
              (Prim (JsBoolean false)) (Prim (JsBoolean true))
              (Obj 20) (Prim JsUndefined) (Prim JsNull) (Obj 21)
              eq_refl eq_refl Hne eq_refl)
    as (router & H1 & H2 & H3 & _ & H5 & _).
  exists router. split; [exact H1|]. split; [exact H3|].
  split; [exact H5|exact H2].
Defined.



(** ** Providers *)

(** X10: [provideLocationStrategy] throws a [TypeError] on [null] options
    before any constructor is called. [forRoot] registers
    [config ? config : {}], so on what [forRoot] registered, whatever its
    [config] argument was ([null] included), reading [useHash] does not
    throw: the result is that of [new HashLocationStrategy] when the
    configuration is an object with a truthy [useHash], and that of
    [new PathLocationStrategy] otherwise, called on the platform location
    and base href given; the function returns what that constructor returns
    and throws what it throws. Leaving the options out is passing [{}]. *)
Theorem provideLocationStrategy_on_forRoot_config
    {Strategy : Type}
    (new_HashLocationStrategy new_PathLocationStrategy
       : Value -> Value -> Thrown + Strategy)
    (platformLocation baseHref : Value) (config : OptionsArg) :
  let provide :=
    provideLocationStrategy new_HashLocationStrategy
      new_PathLocationStrategy platformLocation baseHref in
  provide ArgNull = inl TypeError
  /\ provide ArgUndefined = provide (ArgObject Config.empty)
  /\ provide (ArgObject Config.empty)
     = new_PathLocationStrategy platformLocation baseHref
  /\ provide (ArgObject (config_or_empty config))
     = match config with
       | ArgObject o =>
           if truthy (Config.useHash o)
           then new_HashLocationStrategy platformLocation baseHref
           else new_PathLocationStrategy platformLocation baseHref
       | _ => new_PathLocationStrategy platformLocation baseHref
       end.
Proof.
  cbv zeta. split; [reflexivity|]. split; [reflexivity|].
  split; [reflexivity|]. destruct config; reflexivity.
Qed.



(** X12: in the providers of [forRoot], [ROUTER_CONFIGURATION] is registered
    twice, first with the [{enableTracing: false}] of [ROUTER_PROVIDERS],
    then with [config ? config : {}]; every other token that is not [multi]
    is registered at most once. [PreloadingStrategy] is an alias of
    [config.preloadingStrategy] when [config] is an object that holds a
    truthy one, and of [NoPreloading] otherwise. *)
Theorem forRoot_registrations
    {Routes : Type} (routes : Routes) (config : OptionsArg) (token : DI.t) :
  token <> DI.ROUTER_CONFIGURATION ->
  providers_of DI.ROUTER_CONFIGURATION (forRoot routes config)
  = [ UseValue DI.ROUTER_CONFIGURATION false
        (OptionsValue Config.tracing_off);
      UseValue DI.ROUTER_CONFIGURATION false
        (OptionsValue (config_or_empty config)) ]
  /\ length (List.filter (fun p => negb (is_multi p))
               (providers_of token (forRoot routes config))) <= 1
  /\ providers_of DI.PreloadingStrategy (forRoot routes config)
     = [ UseExisting DI.PreloadingStrategy false
           (match config with
            | ArgObject o =>
                if truthy (Config.preloadingStrategy o)
                then DI.ExistingValue (Config.preloadingStrategy o)
                else DI.ExistingToken DI.NoPreloading
            | _ => DI.ExistingToken DI.NoPreloading
            end) ].
Proof.
  intros Ht. split; [reflexivity|]. split.
  - destruct token;
      first [exfalso; apply Ht; reflexivity | vm_compute; lia].
  - destruct config; reflexivity.
Qed.

Lemma forRoot_registrations_witness :
  DI.Router <> DI.ROUTER_CONFIGURATION
  /\ length (List.filter (fun p => negb (is_multi p))
               (providers_of DI.Router
                  (forRoot [1; 2] (ArgObject sample_options)))) <= 1.
Proof.
  assert (H : DI.Router <> DI.ROUTER_CONFIGURATION) by discriminate.
  split; [exact H|].
  exact (proj1 (proj2 (forRoot_registrations [1; 2]
                         (ArgObject sample_options) DI.Router H))).
Defined.

(** X13: [forRoot] called without a configuration (or with [null])
    registers [{}]; the initializer then reads an undefined
    [initialNavigation] and every one of its steps is the step it takes
    under ['enabledNonBlocking']. With a configuration object the
    initializer reads that object's [initialNavigation]. *)
Theorem forRoot_default_is_enabledNonBlocking
    (config : OptionsArg) (op : Op) (w : World) :
  (forall o, config <> ArgObject o) ->
  perform (initializer_options (config_or_empty config)) op w
  = perform (with_policy (JsString "enabledNonBlocking")) op w.
Proof.
  intros Hc. destruct config as [| |o]; [| |destruct (Hc o eq_refl)].
  all: destruct op; reflexivity.
Qed.

Lemma forRoot_default_is_enabledNonBlocking_witness :
  (forall o, ArgNull <> ArgObject o)
  /\ perform (initializer_options (config_or_empty ArgNull))
       (CallBootstrapListener one_root 7) World_new
     = perform (with_policy (JsString "enabledNonBlocking"))
         (CallBootstrapListener one_root 7) World_new.
Proof.
  assert (H : forall o, ArgNull <> ArgObject o) by (intros o; discriminate).
  split; [exact H|].
  exact (forRoot_default_is_enabledNonBlocking ArgNull _ World_new H).
Defined.
